(** * Request pipeline guards of club-gamma-backend

    A shallow embedding of [src/utils/Middlewares.js]: the Express
    middlewares [validateSchema], [errorMiddleware], [verifyJWT], [isUser],
    [isVerified], [verificationMailSent] and the [rateLimiting]
    configuration, together with the properties the specification states
    about them.

    Conventions of the embedding.
    - JavaScript values are the inductive type [JsVal]; objects are
      association lists in insertion order, tagged with the name of their
      class ("Object" for object literals).
    - A JavaScript expression that may throw is a computation in the error
      monad [Result]; [Throw e] carries the thrown value.
    - A middleware [(req, res, next) => ...] is a function from the request
      to an [Outcome]: it calls [next()], calls [next(err)], writes the
      response itself, or (an [async] function whose body throws outside a
      [try]) leaves a rejected promise behind.
    - What the outside world answers during one request (token
      verification, the ORM lookups, the clock) is collected in the record
      [World], together with the engine's [String.prototype.toLowerCase];
      every theorem quantifies over it.
    - Calls to [logger] and [console] only write to the log and are left
      out, except that the property reads inside their arguments are kept
      where they can throw. *)

From Stdlib Require Import ZArith Ascii String List Lia Bool DecimalString.
From stdpp Require Import base option list strings gmap.
Import ListNotations.

Set Warnings "-register-all".

Local Open Scope string_scope.
Local Open Scope Z_scope.

(** ** JavaScript values *)

Module Js.

(** Numbers are the integers (status codes, indexes and millisecond time
    stamps are all the program computes with); functions are not values of
    the model. *)
Inductive JsVal : Type :=
| JUndefined
| JNull
| JBool (b : bool)
| JNum (n : Z)
| JStr (s : string)
| JArr (items : list JsVal)
| JObj (cls : string) (fields : list (string * JsVal)).

Definition Obj : Type := list (string * JsVal).

(** An object literal [{ k1: v1, ... }]. *)
Definition lit (fs : Obj) : JsVal := JObj "Object" fs.

(** [ToBoolean]. An array or an object is always truthy. *)
Definition truthy (v : JsVal) : bool :=
  match v with
  | JUndefined | JNull => false
  | JBool b => b
  | JNum n => negb (Z.eqb n 0)
  | JStr s => negb (String.eqb s "")
  | JArr _ | JObj _ _ => true
  end.

(** [a || b] *)
Definition or_else (a b : JsVal) : JsVal := if truthy a then a else b.

(** [v === false] *)
Definition strict_eq_false (v : JsVal) : bool :=
  match v with
  | JBool false => true
  | _ => false
  end.

(** Own property of an object, [undefined] when absent. *)
Fixpoint assoc {A : Type} (k : string) (fs : list (string * A)) : option A :=
  match fs with
  | [] => None
  | (k', v) :: fs' => if String.eqb k k' then Some v else assoc k fs'
  end.

Definition get (fs : Obj) (k : string) : JsVal :=
  match assoc k fs with
  | Some v => v
  | None => JUndefined
  end.

(** [o.k = v]: overwrite in place, or append a new property. *)
Fixpoint set (fs : Obj) (k : string) (v : JsVal) : Obj :=
  match fs with
  | [] => [(k, v)]
  | (k', v') :: fs' =>
      if String.eqb k k' then (k, v) :: fs' else (k', v') :: set fs' k v
  end.

Definition has (fs : Obj) (k : string) : bool :=
  match assoc k fs with
  | Some _ => true
  | None => false
  end.

(** *** Exceptions *)

Inductive Result (A : Type) : Type :=
| Ok (a : A)
| Throw (e : JsVal).
Arguments Ok {A} a.
Arguments Throw {A} e.

#[export] Instance Result_ret : MRet Result := fun _ a => Ok a.
#[export] Instance Result_bind : MBind Result := fun _ _ f m =>
  match m with
  | Ok a => f a
  | Throw e => Throw e
  end.

(** [try { body } catch (e) { handler }] *)
Definition try_catch {A : Type} (body : Result A) (handler : JsVal -> Result A)
  : Result A :=
  match body with
  | Ok a => Ok a
  | Throw e => handler e
  end.

(** An [Error] instance of class [cls]; only its [message] is modelled
    (the [stack] is the engine's business). *)
Definition error (cls msg : string) : JsVal := JObj cls [("message", JStr msg)].

Definition show_nullish (v : JsVal) : string :=
  match v with
  | JNull => "null"
  | _ => "undefined"
  end.

(** The TypeError V8 raises for [v.k] when [v] is [undefined] or [null]. *)
Definition cannot_read (v : JsVal) (k : string) : JsVal :=
  error "TypeError"
    ("Cannot read properties of " ++ show_nullish v ++ " (reading '" ++ k ++ "')").

(** [v.k] for an arbitrary value: reading a property of [undefined] or
    [null] throws, a primitive has no own property but a string's
    [length], an array has its [length]. *)
Definition getProp (v : JsVal) (k : string) : Result JsVal :=
  match v with
  | JUndefined | JNull => Throw (cannot_read v k)
  | JObj _ fs => Ok (get fs k)
  | JArr xs => Ok (if String.eqb k "length" then JNum (Z.of_nat (length xs))
                   else JUndefined)
  | JStr s => Ok (if String.eqb k "length" then JNum (Z.of_nat (String.length s))
                  else JUndefined)
  | JBool _ | JNum _ => Ok JUndefined
  end.

(** Decimal text of an index or number, as in a template literal. *)
Definition show_Z (n : Z) : string := NilZero.string_of_int (Z.to_int n).

(** [v[i]] for a literal index [i]. *)
Definition getIdx (v : JsVal) (i : nat) : Result JsVal :=
  match v with
  | JUndefined | JNull => Throw (cannot_read v (show_Z (Z.of_nat i)))
  | JArr xs => Ok (nth i xs JUndefined)
  | JObj _ fs => Ok (get fs (show_Z (Z.of_nat i)))
  | JStr s => Ok (match String.get i s with
                  | Some c => JStr (String c EmptyString)
                  | None => JUndefined
                  end)
  | JBool _ | JNum _ => Ok JUndefined
  end.

(** *** Strings *)

Definition lower_ascii (c : ascii) : ascii :=
  let n := nat_of_ascii c in
  if andb (Nat.leb 65 n) (Nat.leb n 90) then ascii_of_nat (n + 32) else c.

(** Lower-casing of an HTTP field name. Field names are ASCII tokens, and
    on ASCII text [String.prototype.toLowerCase] changes the letters A-Z
    and nothing else. *)
Fixpoint lower_token (s : string) : string :=
  match s with
  | EmptyString => EmptyString
  | String c s' => String (lower_ascii c) (lower_token s')
  end.

(** [s.split(" ")]: the pieces between single spaces; never empty. *)
Fixpoint split_space (s : string) : list string :=
  match s with
  | EmptyString => [EmptyString]
  | String c s' =>
      if Ascii.eqb c " "%char then EmptyString :: split_space s'
      else match split_space s' with
           | [] => [String c EmptyString]
           | p :: ps => String c p :: ps
           end
  end.

(** A string without a space: one piece for [split_space]. *)
Fixpoint no_space (s : string) : bool :=
  match s with
  | EmptyString => true
  | String c s' => negb (Ascii.eqb c " "%char) && no_space s'
  end.

End Js.
Import Js.

(** ** lodash [merge]

    [merge] comes from the lodash package. It is modelled on its documented
    behaviour: own properties of the source are merged into the destination
    from first to last; arrays and plain objects are merged recursively
    (into the destination's value when that is an array, resp. an object,
    and into a fresh [[]] or [{}] otherwise); a source property that is
    [undefined] is skipped when the destination has the key; every other
    value, instances of classes included, is assigned as it is. *)

Module Lodash.

Definition isPlain (cls : string) : bool := String.eqb cls "Object".

(** [object[key] = value] unless [value] is [undefined] and the key is
    there already. *)
Definition assignMergeValue (object : Obj) (key : string) (value : JsVal) : Obj :=
  match value with
  | JUndefined => if has object key then object else set object key JUndefined
  | _ => set object key value
  end.

(** The value stored under a key whose destination value is [objValue]
    ([undefined] when absent) and whose source value is [srcValue]. *)
Fixpoint mergeValue (objValue srcValue : JsVal) {struct srcValue} : JsVal :=
  match srcValue with
  | JArr xs =>
      let base := match objValue with JArr ys => ys | _ => [] end in
      JArr ((fix items (base xs : list JsVal) {struct xs} : list JsVal :=
               match xs with
               | [] => base
               | sv :: xs' =>
                   match base with
                   | [] => mergeValue JUndefined sv :: items [] xs'
                   | ov :: base' =>
                       match sv with
                       | JUndefined => ov
                       | _ => mergeValue ov sv
                       end :: items base' xs'
                   end
               end) base xs)
  | JObj cls sfs =>
      if isPlain cls then
        let '(c, base) := match objValue with
                          | JObj c ofs => (c, ofs)
                          | _ => ("Object", [])
                          end in
        JObj c ((fix fields (object : Obj) (sfs : Obj) {struct sfs} : Obj :=
                   match sfs with
                   | [] => object
                   | (k, sv) :: sfs' =>
                       fields (assignMergeValue object k
                                 (mergeValue (get object k) sv)) sfs'
                   end) base sfs)
      else srcValue
  | _ => srcValue
  end.

(** [merge(object, source)] for two objects; returns the updated
    destination. *)
Fixpoint merge (object source : Obj) : Obj :=
  match source with
  | [] => object
  | (k, sv) :: source' =>
      merge (assignMergeValue object k (mergeValue (get object k) sv)) source'
  end.

End Lodash.

(** Every JavaScript object has pairwise distinct own keys; [wf] is that
    invariant of the representation, through all nested values. *)
Fixpoint fresh_keys {A : Type} (fs : list (string * A)) : bool :=
  match fs with
  | [] => true
  | (k, _) :: fs' =>
      match assoc k fs' with
      | Some _ => false
      | None => fresh_keys fs'
      end
  end.

Fixpoint wf (v : JsVal) : bool :=
  match v with
  | JArr xs => forallb wf xs
  | JObj _ fs =>
      fresh_keys fs &&
      (fix all (fs : Obj) : bool :=
         match fs with
         | [] => true
         | (_, x) :: fs' => wf x && all fs'
         end) fs
  | _ => true
  end.

(** ** Data model (spec section 3) *)

Module Data.

(** A row of the [users] table, as the ORM returns it. [isVerified] is kept
    as a JavaScript value: the guard compares it with [===]. *)
Record User : Type := {
  sys_id : string;
  githubId : string;
  email : string;
  isVerified : JsVal
}.

(** A row of the [verificationTokens] table; [expiresAt] is a valid [Date],
    in milliseconds since the epoch. *)
Record VerificationToken : Type := {
  userId : string;
  expiresAt : Z
}.

(** The request context. [cookies] is [undefined] when no cookie parser
    ran; header names are stored in lower case, as Node delivers them;
    [user] is [undefined] until a guard attaches a record. *)
Record Request : Type := {
  body : JsVal;
  cookies : option (list (string * string));
  headers : list (string * string);
  originalUrl : string;
  user : option User
}.

Definition with_body (req : Request) (b : JsVal) : Request :=
  {| body := b; cookies := cookies req; headers := headers req;
     originalUrl := originalUrl req; user := user req |}.

Definition with_user (req : Request) (u : User) : Request :=
  {| body := body req; cookies := cookies req; headers := headers req;
     originalUrl := originalUrl req; user := Some u |}.

(** [req.header(name)]: the framework looks the lower-cased field name up
    in the headers. *)
Definition header (req : Request) (name : string) : option string :=
  assoc (lower_token name) (headers req).

(** A response as sent: [res.status(code)] then [send] or [json], with the
    headers set on [res] before. *)
Record Response : Type := {
  status : JsVal;
  resHeaders : list (string * string);
  payload : JsVal
}.

(** What a middleware does with its continuation. *)
Inductive Outcome : Type :=
| Next (req : Request)              (* next() *)
| NextErr (err : Obj) (req : Request)  (* next(err), err an object literal *)
| Sent (r : Response)               (* the guard wrote the response itself *)
| Rejected (e : JsVal).             (* the async function threw: no next, no response *)

(** An [async] function whose body throws ends in a rejected promise. *)
Definition settle (r : Result Outcome) : Outcome :=
  match r with
  | Ok o => o
  | Throw e => Rejected e
  end.

(** The collaborators and the engine, as one request sees them. *)
Record World : Type := {
  (* jwt.verify(token, process.env.JWT_SECRET): the payload, or throws *)
  jwt_verify : string -> Result JsVal;
  (* prisma.users.findUnique({ where: { githubId } }) *)
  users_by_githubId : JsVal -> Result (option User);
  (* prisma.users.findUnique({ where: { email } }) *)
  users_by_email : string -> Result (option User);
  (* prisma.verificationTokens.findUnique({ where: { userId } }) *)
  tokens_by_userId : string -> Result (option VerificationToken);
  (* String.prototype.toLowerCase of the engine, as line 81 calls it *)
  toLowerCase : string -> string;
  (* new Date() at line 121 and Date.now() at line 124, in milliseconds *)
  now_check : Z;
  now_left : Z;
  (* offset of local time from UTC at a time value, in milliseconds *)
  localTZA : Z -> Z;
  (* the time at which the rate limiter sees the request *)
  now_hit : Z
}.

(** A schema, as [validateSchema] uses it: [schema.parseAsync(body)]
    resolves to the parsed value or rejects with the validation error. *)
Definition Schema : Type := JsVal -> Result JsVal.

End Data.
Import Data.

(** ** The guards (Middlewares.js) *)

Module Middlewares.

(** Modelled from the spec: the class [ApiError] (required from
    [./ApiError]) is not among the sources. Section 6 gives the envelope it
    builds from its four arguments:
    [{ statusCode, message, error: { message, extraData? }, stack }]. *)
Definition ApiError (statusCode message error stack : JsVal) : JsVal :=
  JObj "ApiError"
    [("statusCode", statusCode); ("message", message);
     ("error", error); ("stack", stack)].

(** Lines 19-31. The descriptor is an object; the assignment
    [err.statusCode = 400] updates it before it is read again. No header is
    set here. *)
Definition errorMiddleware (err : Obj) : Response :=
  let error := [("message", or_else (get err "message")
                              (JStr "Something went wrong"))] in
  let error :=
    if truthy (get err "extraData")
    then Lodash.merge error [("extraData", get err "extraData")]
    else error in
  let err :=
    if negb (truthy (get err "statusCode"))
    then set err "statusCode" (JNum 400)
    else err in
  {| status := get err "statusCode";
     resHeaders := [];
     payload := ApiError (get err "statusCode") (get err "message")
                  (lit error) (get err "stack") |}.

(** Lines 8-17. The [catch] block reads [err.errors[0].message] and
    [err.errors]; a throw in there rejects the promise. *)
Definition validateSchema (schema : Schema) (req : Request) : Outcome :=
  settle
    (try_catch
       (parsedBody ← schema (body req);
        mret (Next (with_body req parsedBody)))
       (fun err =>
          errors ← getProp err "errors";
          first ← getIdx errors 0;
          message ← getProp first "message";
          extraData ← getProp err "errors";
          mret (NextErr
                  [("path", JStr (originalUrl req ++ "/middleware/validate"));
                   ("status", JNum 422);
                   ("message", message);
                   ("extraData", extraData)] req))).

(** A string or [undefined], as a value. *)
Definition of_opt (o : option string) : JsVal :=
  match o with
  | Some s => JStr s
  | None => JUndefined
  end.

(** Line 34:
    [req.cookies?.token || req.header("Authorization")?.split(" ")[1]].
    Cookie values and header values are strings. *)
Definition select_token (req : Request) : option string :=
  let cookie := c ← cookies req; assoc "token" c in
  let bearer := h ← header req "Authorization"; nth_error (split_space h) 1 in
  if truthy (of_opt cookie) then cookie else bearer.

Definition jwt_failure (statusCode : Z) (message : string) : Obj :=
  [("path", JStr "/middleware/verifyJWT");
   ("statusCode", JNum statusCode);
   ("message", JStr message)].

(** Lines 41-70: the outer [try] block of [verifyJWT], with the inner one
    around [jwt.verify]. *)
Definition verifyJWT_try (w : World) (req : Request) (token : string)
  : Result Outcome :=
  match jwt_verify w token with
  | Throw jwtError => mret (NextErr (jwt_failure 401 "Invalid token") req)
  | Ok payload =>
      id ← getProp payload "id";
      if negb (truthy id) then
        mret (NextErr (jwt_failure 401 "Invalid token") req)
      else
        found ← users_by_githubId w id;
        match found with
        | None => mret (NextErr (jwt_failure 401 "User not found") req)
        | Some u => mret (Next (with_user req u))
        end
  end.

(** Lines 33-74. [token.toString()] is the token itself: it is a
    string. *)
Definition verifyJWT (w : World) (req : Request) : Outcome :=
  let token := select_token req in
  if negb (truthy (of_opt token)) then
    NextErr (jwt_failure 401 "No token provided") req
  else
    settle
      (try_catch (verifyJWT_try w req (default "" token))
         (fun error =>
            message ← getProp error "message";
            mret (NextErr
                    [("path", JStr "/middleware/verifyJWT");
                     ("statusCode", JNum 500);
                     ("message", message);
                     ("extraData", error)] req))).

(** [const { email } = req.body]: destructuring [undefined] or [null]
    throws. *)
Definition destructure_email (b : JsVal) : Result JsVal :=
  match b with
  | JUndefined | JNull =>
      Throw (error "TypeError"
               ("Cannot destructure property 'email' of 'req.body' as it is "
                ++ show_nullish b ++ "."))
  | _ => getProp b "email"
  end.

(** [email.toLowerCase()]: only a string has the method. *)
Definition call_toLowerCase (w : World) (email : JsVal) : Result string :=
  match email with
  | JStr s => Ok (toLowerCase w s)
  | JUndefined | JNull => Throw (cannot_read email "toLowerCase")
  | _ => Throw (error "TypeError" "email.toLowerCase is not a function")
  end.

(** Lines 78-93: the [try] block of [isUser]. On a miss the guard answers
    itself, with [res.status(400).json(...)]. *)
Definition isUser_try (w : World) (req : Request) : Result Outcome :=
  email ← destructure_email (body req);
  lowered ← call_toLowerCase w email;
  found ← users_by_email w lowered;
  match found with
  | None =>
      mret (Sent {| status := JNum 400;
                    resHeaders := [];
                    payload := lit [("error", JStr "User not found")] |})
  | Some u => mret (Next (with_user req u))
  end.

(** Lines 76-98. The [catch] block reads [error.stack] for the log before
    it reads [error.message]. *)
Definition isUser (w : World) (req : Request) : Outcome :=
  settle
    (try_catch (isUser_try w req)
       (fun error =>
          _ ← getProp error "stack";
          message ← getProp error "message";
          mret (NextErr
                  [("status", JNum 400);
                   ("message", message);
                   ("extraData", error)] req))).

(** [req.user.k]: throws while no user is attached. *)
Definition user_prop {A : Type} (req : Request) (k : string) (f : User -> A)
  : Result A :=
  match user req with
  | Some u => Ok (f u)
  | None => Throw (cannot_read JUndefined k)
  end.

Definition internal_failure (error : JsVal) (req : Request) : Result Outcome :=
  message ← getProp error "message";
  mret (NextErr
          [("status", JNum 500);
           ("message", message);
           ("extraData", error)] req).

(** Lines 101-108: the [try] block of [isVerified]. *)
Definition isVerified_try (w : World) (req : Request) : Result Outcome :=
  _ ← user_prop req "sys_id" sys_id;
  verified ← user_prop req "isVerified" Data.isVerified;
  if strict_eq_false verified then
    mret (NextErr
            [("path", JStr "/middleware/isVerified");
             ("statusCode", JNum 400);
             ("message", JStr "User is not verified")] req)
  else mret (Next req).

(** Lines 100-112. *)
Definition isVerified (w : World) (req : Request) : Outcome :=
  settle (try_catch (isVerified_try w req)
            (fun error => internal_failure error req)).

(** *** Dates *)

(** [new Date(t)]: a time value outside the range of [Date] gives an
    invalid date, whose components are [NaN] ([None] here). *)
Definition max_time : Z := 8640000000000000.

Definition newDate (t : Z) : option Z :=
  if Z.abs t <=? max_time then Some t else None.

(** [getMinutes()] and [getSeconds()]: components of the local time. *)
Definition getMinutes (w : World) (d : option Z) : option Z :=
  t ← d; Some (((t + localTZA w t) / 60000) mod 60).

Definition getSeconds (w : World) (d : option Z) : option Z :=
  t ← d; Some (((t + localTZA w t) / 1000) mod 60).

(** A number or [NaN] in a template literal, and [n != 0]. *)
Definition show_num (n : option Z) : string :=
  match n with
  | Some z => show_Z z
  | None => "NaN"
  end.

Definition not_zero (n : option Z) : bool :=
  match n with
  | Some z => negb (Z.eqb z 0)
  | None => true
  end.

(** The text after "you can resend it after". *)
Definition left_text (w : World) (leftTime : option Z) : string :=
  if not_zero (getMinutes w leftTime)
  then show_num (getMinutes w leftTime) ++ ":" ++
       show_num (getSeconds w leftTime) ++ " minutes"
  else show_num (getSeconds w leftTime) ++ " seconds".

(** Lines 116-127: the [try] block of [verificationMailSent]. The clock is
    read twice: [new Date()] for the test and [Date.now()] for the
    difference. *)
Definition verificationMailSent_try (w : World) (req : Request)
  : Result Outcome :=
  uid ← user_prop req "sys_id" sys_id;
  tokenData ← tokens_by_userId w uid;
  match tokenData with
  | Some td =>
      if now_check w <? expiresAt td then
        _ ← user_prop req "email" email;
        let leftTime := newDate (expiresAt td - now_left w) in
        mret (NextErr
                [("path", JStr "/middleWare/verificationMailSent");
                 ("statusCode", JNum 400);
                 ("message",
                  JStr ("Verification mail already sent, you can resend it after "
                        ++ left_text w leftTime))] req)
      else mret (Next req)
  | None => mret (Next req)
  end.

(** Lines 114-131. *)
Definition verificationMailSent (w : World) (req : Request) : Outcome :=
  settle (try_catch (verificationMailSent_try w req)
            (fun error => internal_failure error req)).

(** *** Rate limiting *)

(** The options object of lines 133-147. *)
Record Options : Type := {
  windowMs : Z;
  max : Z;
  message : JsVal;
  keyGenerator : Request -> Result string;
  standardHeaders : bool;
  legacyHeaders : bool;
  skip : Request -> Result bool
}.

Definition rateLimiting_options : Options := {|
  windowMs := 2 * 60 * 1000;
  max := 2;
  message :=
    lit [("path", JStr "/middleWare/rateLimitExceeded");
         ("statusCode", JNum 429);
         ("message",
          JStr "Too many requests from this user, please try again after 2 minutes.")];
  keyGenerator := fun req => user_prop req "githubId" githubId;
  standardHeaders := true;
  legacyHeaders := false;
  skip := fun req =>
    g ← user_prop req "githubId" githubId;
    mret (String.eqb g "jalaym825")
|}.

(** The limiter's store: for each key, the times of the requests counted
    for it, latest first. *)
Abbreviation Store := (gmap string (list Z)).

Definition hits (st : Store) (key : string) : list Z := default [] (st !! key).

(** The counted requests of the window that ends at [now]. *)
Definition recent (windowMs now : Z) (ts : list Z) : list Z :=
  List.filter (fun t => now - windowMs <? t) ts.

(** Modelled from the spec: the headers of section 4.6, the limit, the
    remaining quota and the seconds until the oldest counted request leaves
    the window, under the standard names and under the legacy [X-] names. *)
Definition limit_headers (o : Options) (now : Z) (counted : list Z)
  : list (string * string) :=
  let remaining := Z.max 0 (max o - Z.of_nat (length counted)) in
  let reset := (List.last counted now + windowMs o - now + 999) / 1000 in
  (if standardHeaders o
   then [("RateLimit-Limit", show_Z (max o));
         ("RateLimit-Remaining", show_Z remaining);
         ("RateLimit-Reset", show_Z reset)]
   else []) ++
  (if legacyHeaders o
   then [("X-RateLimit-Limit", show_Z (max o));
         ("X-RateLimit-Remaining", show_Z remaining);
         ("X-RateLimit-Reset", show_Z reset)]
   else []).

(** Modelled from the spec: the function [rateLimit] of the package
    express-rate-limit, which turns the options into a middleware, is not
    among the sources. Section 4.6: a sliding-window counter keyed by the
    key generator's value, [max] requests per [windowMs]; exceeding the
    limit fails with 429 and the configured message; a request for which
    [skip] holds is exempt from the count entirely; the response carries the
    standard headers (limit, remaining quota, reset time) and the legacy
    ones as the two flags say. The result is the new store, the headers set
    on [res], and the outcome. *)
Definition rateLimit (o : Options) (now : Z) (st : Store) (req : Request)
  : Store * list (string * string) * Outcome :=
  match skip o req with
  | Throw e => (st, [], Rejected e)
  | Ok true => (st, [], Next req)
  | Ok false =>
      match keyGenerator o req with
      | Throw e => (st, [], Rejected e)
      | Ok key =>
          let counted := now :: recent (windowMs o) now (hits st key) in
          let hs := limit_headers o now counted in
          (<[key := counted]> st, hs,
           if max o <? Z.of_nat (length counted)
           then Sent {| status := JNum 429; resHeaders := hs;
                        payload := message o |}
           else Next req)
      end
  end.

Definition rateLimiting (w : World) (st : Store) (req : Request)
  : Store * list (string * string) * Outcome :=
  rateLimit rateLimiting_options (now_hit w) st req.


End Middlewares.

(** ** The pipeline

    The host framework runs the guards of a route in order. [next()] moves
    to the following guard, [next(err)] to [errorMiddleware], and a guard
    that answers itself ends the chain; a guard whose promise is rejected
    leaves the request without an answer. *)

Inductive Guard : Type :=
| VerifyJWT
| IsUser
| IsVerified
| VerificationMailSent
| ValidateSchema (schema : Schema)
| RateLimiting.

Abbreviation Store := Middlewares.Store.

Definition run_guard (w : World) (g : Guard) (st : Store) (req : Request)
  : Store * list (string * string) * Outcome :=
  match g with
  | VerifyJWT => (st, [], Middlewares.verifyJWT w req)
  | IsUser => (st, [], Middlewares.isUser w req)
  | IsVerified => (st, [], Middlewares.isVerified w req)
  | VerificationMailSent => (st, [], Middlewares.verificationMailSent w req)
  | ValidateSchema schema => (st, [], Middlewares.validateSchema schema req)
  | RateLimiting => Middlewares.rateLimiting w st req
  end.

(** How a chain ends. *)
Inductive Final : Type :=
| Handler (req : Request) (hs : list (string * string))  (* the route handler runs *)
| Answered (r : Response)
| Stalled (e : JsVal).

Definition add_headers (hs : list (string * string)) (r : Response) : Response :=
  {| status := status r; resHeaders := hs ++ resHeaders r; payload := payload r |}.

(** What the pipeline makes of one guard's outcome, [None] when the chain
    goes on. *)
Definition render (o : Outcome) : option Response :=
  match o with
  | NextErr err _ => Some (Middlewares.errorMiddleware err)
  | Sent r => Some r
  | Next _ | Rejected _ => None
  end.

Fixpoint run_chain (w : World) (gs : list Guard) (st : Store)
    (hs : list (string * string)) (req : Request) : Store * Final :=
  match gs with
  | [] => (st, Handler req hs)
  | g :: gs' =>
      match run_guard w g st req with
      | (st', hs', Next req') => run_chain w gs' st' (hs ++ hs') req'
      | (st', hs', NextErr err _) =>
          (st', Answered (add_headers hs (Middlewares.errorMiddleware err)))
      | (st', hs', Sent r) => (st', Answered (add_headers hs r))
      | (st', _, Rejected e) => (st', Stalled e)
      end
  end.

(** The guards a chain invokes, each with the request it is given. *)
Fixpoint invocations (w : World) (gs : list Guard) (st : Store)
    (req : Request) : list (Guard * Request) :=
  match gs with
  | [] => []
  | g :: gs' =>
      (g, req) ::
      match run_guard w g st req with
      | (st', _, Next req') => invocations w gs' st' req'
      | _ => []
      end
  end.

(** The [error] member of the envelope a response carries. *)
Definition error_object (r : Response) : Obj :=
  match payload r with
  | JObj _ envelope =>
      match get envelope "error" with
      | JObj _ fs => fs
      | _ => []
      end
  | _ => []
  end.

(** ** Vocabulary of the properties *)

(** The answer [isUser] writes on a miss. *)
Definition user_not_found : Response :=
  {| status := JNum 400; resHeaders := [];
     payload := lit [("error", JStr "User not found")] |}.

(** The exceptions of the outer [try] block of [verifyJWT] for the token
    [t]: reading [payload.id] throws, or the user lookup throws. *)
Inductive jwt_exception (w : World) (t : string) (e : JsVal) : Prop :=
| payload_read_throws payload :
    jwt_verify w t = Ok payload -> getProp payload "id" = Throw e ->
    jwt_exception w t e
| user_lookup_throws payload id :
    jwt_verify w t = Ok payload -> getProp payload "id" = Ok id ->
    truthy id = true -> users_by_githubId w id = Throw e ->
    jwt_exception w t e.

(** Every way in which [verifyJWT] hands a descriptor to [next]. *)
Inductive jwt_failure_case (w : World) (req : Request) : Obj -> Prop :=
| no_token :
    truthy (Middlewares.of_opt (Middlewares.select_token req)) = false ->
    jwt_failure_case w req (Middlewares.jwt_failure 401 "No token provided")
| verification_throws t e :
    Middlewares.select_token req = Some t -> t <> "" ->
    jwt_verify w t = Throw e ->
    jwt_failure_case w req (Middlewares.jwt_failure 401 "Invalid token")
| no_id t payload id :
    Middlewares.select_token req = Some t -> t <> "" ->
    jwt_verify w t = Ok payload -> getProp payload "id" = Ok id ->
    truthy id = false ->
    jwt_failure_case w req (Middlewares.jwt_failure 401 "Invalid token")
| unknown_user t payload id :
    Middlewares.select_token req = Some t -> t <> "" ->
    jwt_verify w t = Ok payload -> getProp payload "id" = Ok id ->
    truthy id = true -> users_by_githubId w id = Ok None ->
    jwt_failure_case w req (Middlewares.jwt_failure 401 "User not found")
| internal_error t e message :
    Middlewares.select_token req = Some t -> t <> "" ->
    jwt_exception w t e ->
    getProp e "message" = Ok message ->
    jwt_failure_case w req
      [("path", JStr "/middleware/verifyJWT"); ("statusCode", JNum 500);
       ("message", message); ("extraData", e)].




(** The message of the descriptor a guard fails with. *)
Definition message_of (o : Outcome) : JsVal :=
  match o with
  | NextErr d _ => get d "message"
  | _ => JUndefined
  end.

(** ** Sample data *)

Module Samples.

Definition jay : User :=
  {| sys_id := "u-17"; githubId := "octocat"; email := "jay@example.com";
     Data.isVerified := JBool true |}.

Definition newcomer : User :=
  {| sys_id := "u-18"; githubId := "hubot"; email := "hubot@example.com";
     Data.isVerified := JBool false |}.

Definition database_down : JsVal :=
  error "PrismaClientInitializationError" "Can't reach database server".

(** A deployment with two users; the token "good" carries jay's id, the
    token "ghost" an id nobody has, "anon" no id, and "storm" an id whose
    lookup fails. The local time zone is UTC. The emails of the samples are
    ASCII text, on which the engine's [toLowerCase] is [lower_token]. *)
Definition world : World :=
  {| jwt_verify := fun t =>
       if String.eqb t "good" then Ok (lit [("id", JStr "octocat")])
       else if String.eqb t "ghost" then Ok (lit [("id", JStr "nobody")])
       else if String.eqb t "anon" then Ok (lit [("iat", JNum 1700000000)])
       else if String.eqb t "storm" then Ok (lit [("id", JStr "storm")])
       else Throw (error "JsonWebTokenError" "jwt malformed");
     users_by_githubId := fun id =>
       match id with
       | JStr g =>
           if String.eqb g "octocat" then Ok (Some jay)
           else if String.eqb g "hubot" then Ok (Some newcomer)
           else if String.eqb g "storm" then Throw database_down
           else Ok None
       | _ => Throw (error "PrismaClientValidationError" "Invalid value provided")
       end;
     users_by_email := fun e =>
       if String.eqb e "jay@example.com" then Ok (Some jay)
       else if String.eqb e "hubot@example.com" then Ok (Some newcomer)
       else Ok None;
     tokens_by_userId := fun uid =>
       if String.eqb uid "u-18"
       then Ok (Some {| userId := "u-18"; expiresAt := 1700000300000 |})
       else if String.eqb uid "u-17" then Ok None
       else Throw database_down;
     toLowerCase := lower_token;
     now_check := 1700000205000;
     now_left := 1700000205004;
     localTZA := fun _ => 0;
     now_hit := 1700000205010 |}.

Definition request : Request :=
  {| body := lit [("email", JStr "Jay@Example.com")];
     cookies := Some [("token", "good")];
     headers := [("authorization", "Bearer ghost")];
     originalUrl := "/auth/login";
     user := None |}.

Definition bearer_request : Request :=
  {| body := lit [];
     cookies := None;
     headers := [("authorization", "Bearer good")];
     originalUrl := "/auth/me";
     user := None |}.

(** The same deployment, with the limiter's clock at [t]. *)
Definition at_time (t : Z) : World :=
  {| jwt_verify := jwt_verify world;
     users_by_githubId := users_by_githubId world;
     users_by_email := users_by_email world;
     tokens_by_userId := tokens_by_userId world;
     toLowerCase := toLowerCase world;
     now_check := t; now_left := t; localTZA := localTZA world;
     now_hit := t |}.

(** The same deployment seen from a zone five and a half hours east of
    Greenwich, [left] milliseconds before newcomer's token expires. *)
Definition east (left : Z) : World :=
  {| jwt_verify := jwt_verify world;
     users_by_githubId := users_by_githubId world;
     users_by_email := users_by_email world;
     tokens_by_userId := tokens_by_userId world;
     toLowerCase := toLowerCase world;
     now_check := 1700000300000 - left; now_left := 1700000300000 - left;
     localTZA := fun _ => 19800000;
     now_hit := 1700000300000 - left |}.

Definition storm_request : Request :=
  {| body := lit [];
     cookies := Some [("token", "storm")];
     headers := [];
     originalUrl := "/auth/me";
     user := None |}.

Definition jay_request : Request := with_user request jay.

Definition newcomer_request : Request := with_user request newcomer.

Definition stranger_request : Request :=
  with_body request (lit [("email", JStr "Nobody@Example.com")]).

(** The descriptor [validateSchema] builds for a missing email, with a hole
    in the error list. *)
Definition validation_descriptor : Obj :=
  [("status", JNum 422); ("message", JStr "Required");
   ("extraData", JArr [lit [("message", JStr "Required")]; JUndefined])].

(** The TypeError of [req.user.sys_id] without a user, and its
    descriptor. *)
Definition no_user_error : JsVal := cannot_read JUndefined "sys_id".

Definition no_user_descriptor : Obj :=
  [("status", JNum 500);
   ("message", JStr "Cannot read properties of undefined (reading 'sys_id')");
   ("extraData", no_user_error)].

(** The error a schema engine rejects with: [errors] lists the issues. *)
Definition validation_error : JsVal :=
  JObj "ZodError"
    [("errors",
      JArr [lit [("path", JArr [JStr "email"]); ("message", JStr "Required")];
            lit [("path", JArr [JStr "password"]); ("message", JStr "Too short")]])].

(** A schema that wants a string [email] and lower-cases its ASCII
    letters. *)
Definition login_schema : Schema := fun b =>
  match getProp b "email" with
  | Ok (JStr e) => Ok (lit [("email", JStr (lower_token e))])
  | _ => Throw validation_error
  end.

End Samples.

(** ** Further sample data *)

Module Cases.

(** A header with another scheme and a trailing word. *)
Definition basic_request : Request :=
  {| body := lit [];
     cookies := None;
     headers := [("authorization", "Basic good extra")];
     originalUrl := "/auth/me";
     user := None |}.

(** A header that is the bare token. *)
Definition raw_header_request : Request :=
  {| body := lit [];
     cookies := None;
     headers := [("authorization", "good")];
     originalUrl := "/auth/me";
     user := None |}.

(** A cookie that no longer verifies, beside a header that does. *)
Definition stale_cookie_request : Request :=
  {| body := lit [];
     cookies := Some [("token", "expired")];
     headers := [("authorization", "Bearer good")];
     originalUrl := "/auth/me";
     user := None |}.

(** Jay's token with newcomer's email in the body. *)
Definition mixed_request : Request :=
  {| body := lit [("email", JStr "Hubot@Example.com")];
     cookies := Some [("token", "good")];
     headers := [];
     originalUrl := "/auth/resend";
     user := None |}.


(** The deployment while the database is away: the lookup by email throws
    an error, and the token lookup throws [undefined]. *)
Definition outage : World :=
  {| jwt_verify := jwt_verify Samples.world;
     users_by_githubId := users_by_githubId Samples.world;
     users_by_email := fun _ => Throw Samples.database_down;
     tokens_by_userId := fun _ => Throw JUndefined;
     toLowerCase := toLowerCase Samples.world;
     now_check := now_check Samples.world;
     now_left := now_left Samples.world;
     localTZA := localTZA Samples.world;
     now_hit := now_hit Samples.world |}.

(** A schema engine that fails with an error that lists no issues. *)
Definition crashing_schema : Schema := fun _ =>
  Throw (error "RangeError" "Maximum call stack size exceeded").

(** The deployment with the clock [ahead] milliseconds before newcomer's
    token expires at the test and [behind] milliseconds after it at the
    difference, in a zone [hours] whole hours east of Greenwich. *)
Definition around_expiry (ahead behind hours : Z) : World :=
  {| jwt_verify := jwt_verify Samples.world;
     users_by_githubId := users_by_githubId Samples.world;
     users_by_email := users_by_email Samples.world;
     tokens_by_userId := tokens_by_userId Samples.world;
     toLowerCase := toLowerCase Samples.world;
     now_check := 1700000300000 - ahead;
     now_left := 1700000300000 + behind;
     localTZA := fun _ => 3600000 * hours;
     now_hit := now_hit Samples.world |}.

End Cases.

(** * Properties *)

(** ** Values *)

Example truthy_empty_array : truthy (JArr []) = true.
Proof. reflexivity. Qed.

Example split_bearer : split_space "Bearer abc.def" = ["Bearer"; "abc.def"].
Proof. reflexivity. Qed.

Example split_double_space : split_space "a  b" = ["a"; ""; "b"].
Proof. reflexivity. Qed.

Example show_Z_examples : (show_Z 0, show_Z 59, show_Z 7) = ("0", "59", "7").
Proof. reflexivity. Qed.

Example lower_example : lower_token "Authorization" = "authorization".
Proof. reflexivity. Qed.

(** Induction on a value and, through the lists, on the values inside. *)
Lemma JsVal_nested_ind (P : JsVal -> Prop) :
  P JUndefined -> P JNull -> (forall b, P (JBool b)) ->
  (forall n, P (JNum n)) -> (forall s, P (JStr s)) ->
  (forall xs, Forall P xs -> P (JArr xs)) ->
  (forall cls fs, Forall (fun kv => P (snd kv)) fs -> P (JObj cls fs)) ->
  forall v, P v.
Proof.
  intros Hu Hn Hb Hz Hs Ha Ho.
  fix IH 1.
  intros [ | | b | n | s | xs | cls fs];
    [exact Hu | exact Hn | apply Hb | apply Hz | apply Hs | | ].
  - apply Ha. induction xs as [|x xs IHxs]; constructor; [apply IH | exact IHxs].
  - apply Ho. induction fs as [|[k x] fs IHfs]; constructor; [apply IH | exact IHfs].
Qed.

Lemma assoc_app_None {A : Type} (k : string) (fs gs : list (string * A)) :
  assoc k fs = None -> assoc k (fs ++ gs)%list = assoc k gs.
Proof.
  induction fs as [|[k' v] fs IH]; simpl; [reflexivity|].
  destruct (String.eqb k k'); [discriminate | exact IH].
Qed.

Lemma set_fresh (fs : Obj) (k : string) (v : JsVal) :
  assoc k fs = None -> set fs k v = (fs ++ [(k, v)])%list.
Proof.
  induction fs as [|[k' v'] fs IH]; simpl; [reflexivity|].
  destruct (String.eqb k k'); [discriminate|].
  intros H. now rewrite IH.
Qed.

Lemma assignMergeValue_fresh (object : Obj) (k : string) (v : JsVal) :
  assoc k object = None ->
  Lodash.assignMergeValue object k v = (object ++ [(k, v)])%list.
Proof.
  intros H. unfold Lodash.assignMergeValue, has.
  destruct v; rewrite ?H; now apply set_fresh.
Qed.

(** Merging into keys the destination does not have appends the source's
    properties, once each value is known to be copied as it is. *)
Lemma merge_fresh (source : Obj) :
  Forall (fun kv => Lodash.mergeValue JUndefined (snd kv) = snd kv) source ->
  fresh_keys source = true ->
  forall object : Obj,
    (forall k v, assoc k source = Some v -> assoc k object = None) ->
    Lodash.merge object source = (object ++ source)%list.
Proof.
  induction 1 as [|[k sv] source Hsv _ IH]; intros Hfresh object Hdisj; simpl.
  - now rewrite app_nil_r.
  - simpl in Hfresh, Hsv.
    destruct (assoc k source) eqn:Hk; [discriminate|].
    assert (Hko : assoc k object = None).
    { apply (Hdisj k sv). simpl. now rewrite String.eqb_refl. }
    unfold get. rewrite Hko, Hsv, assignMergeValue_fresh by exact Hko.
    rewrite IH; [now rewrite <- app_assoc | exact Hfresh |].
    intros k' v' Hk'.
    assert (Hne : String.eqb k' k = false).
    { destruct (String.eqb_spec k' k) as [->|]; [congruence | reflexivity]. }
    rewrite assoc_app_None.
    + simpl. now rewrite Hne.
    + apply (Hdisj k' v'). simpl. now rewrite Hne.
Qed.

(** A value merged under a key that the destination lacks is stored
    unchanged: plain objects and arrays are rebuilt property by property,
    everything else is assigned. *)
Lemma mergeValue_fresh (v : JsVal) :
  wf v = true -> Lodash.mergeValue JUndefined v = v.
Proof.
  induction v as [ | | b | n | s | xs IH | cls fs IH] using JsVal_nested_ind;
    intros Hwf; try reflexivity.
  - simpl. f_equal. simpl in Hwf.
    induction IH as [|x xs Hx _ IHxs]; [reflexivity|].
    simpl in Hwf. apply andb_prop in Hwf as [Hwx Hwxs].
    f_equal; [now apply Hx | now apply IHxs].
  - simpl in Hwf. apply andb_prop in Hwf as [Hfresh Hall].
    simpl. destruct (Lodash.isPlain cls) eqn:Hplain; [|reflexivity].
    apply String.eqb_eq in Hplain. subst cls. f_equal.
    change ((fix fields (object sfs : Obj) {struct sfs} : Obj :=
               match sfs with
               | [] => object
               | (k, sv) :: sfs' =>
                   fields (Lodash.assignMergeValue object k
                             (Lodash.mergeValue (get object k) sv)) sfs'
               end) [] fs) with (Lodash.merge [] fs).
    rewrite merge_fresh; [reflexivity | | exact Hfresh | reflexivity].
    clear Hfresh.
    induction IH as [|[k x] fs Hx _ IHfs]; constructor.
    + simpl in *. apply andb_prop in Hall as [Hwx _]. now apply Hx.
    + simpl in Hall. apply andb_prop in Hall as [_ Hall]. now apply IHfs.
Qed.

Example merge_nested :
  Lodash.merge [("a", lit [("x", JNum 1)]); ("b", JNum 2)]
               [("a", lit [("y", JNum 3)]); ("b", JUndefined); ("c", JArr [JNull])]
  = [("a", lit [("x", JNum 1); ("y", JNum 3)]); ("b", JNum 2); ("c", JArr [JNull])].
Proof. reflexivity. Qed.

Lemma get_set_same (fs : Obj) (k : string) (v : JsVal) : get (set fs k v) k = v.
Proof.
  unfold get.
  induction fs as [|[k' v'] fs IH]; simpl.
  - now rewrite String.eqb_refl.
  - destruct (String.eqb k k') eqn:E; simpl.
    + now rewrite String.eqb_refl.
    + now rewrite E.
Qed.

Lemma has_false_get (fs : Obj) (k : string) : has fs k = false -> get fs k = JUndefined.
Proof. unfold has, get. now destruct (assoc k fs). Qed.

(** ** The error handler *)

(** A descriptor without a truthy [statusCode] is answered with 400. *)
Lemma errorMiddleware_status_default (err : Obj) :
  truthy (get err "statusCode") = false ->
  status (Middlewares.errorMiddleware err) = JNum 400.
Proof.
  intros H. unfold Middlewares.errorMiddleware. simpl.
  rewrite H. simpl. apply get_set_same.
Qed.

(** A descriptor with a truthy [statusCode] is answered with it. *)
Lemma errorMiddleware_status_given (err : Obj) :
  truthy (get err "statusCode") = true ->
  status (Middlewares.errorMiddleware err) = get err "statusCode".
Proof.
  intros H. unfold Middlewares.errorMiddleware. simpl. now rewrite H.
Qed.

Lemma errorMiddleware_error_object (err : Obj) :
  truthy (get err "extraData") = true ->
  wf (get err "extraData") = true ->
  error_object (Middlewares.errorMiddleware err) =
    [("message", or_else (get err "message") (JStr "Something went wrong"));
     ("extraData", get err "extraData")].
Proof.
  intros Ht Hwf. unfold Middlewares.errorMiddleware, error_object. simpl.
  rewrite Ht. simpl. rewrite mergeValue_fresh by exact Hwf.
  destruct (get err "extraData"); try discriminate; reflexivity.
Qed.

Lemma errorMiddleware_no_extraData (err : Obj) :
  truthy (get err "extraData") = false ->
  error_object (Middlewares.errorMiddleware err) =
    [("message", or_else (get err "message") (JStr "Something went wrong"))].
Proof.
  intros Ht. unfold Middlewares.errorMiddleware, error_object. simpl.
  now rewrite Ht.
Qed.

(** C3, as amended. For every descriptor given to [errorMiddleware]: if it
    has no [statusCode] field the response is sent with status 400, and if
    it carries a truthy [extraData] the [error] object of the response body
    is the message together with that [extraData], unchanged, under the key
    [extraData]. *)
Theorem errorMiddleware_defaults (err : Obj) :
  (has err "statusCode" = false ->
   status (Middlewares.errorMiddleware err) = JNum 400) /\
  (truthy (get err "extraData") = true ->
   wf (get err "extraData") = true ->
   error_object (Middlewares.errorMiddleware err) =
     [("message", or_else (get err "message") (JStr "Something went wrong"));
      ("extraData", get err "extraData")]).
Proof.
  split.
  - intros H. apply errorMiddleware_status_default.
    now rewrite (has_false_get _ _ H).
  - apply errorMiddleware_error_object.
Qed.

Lemma errorMiddleware_defaults_witness :
  status (Middlewares.errorMiddleware Samples.validation_descriptor) = JNum 400 /\
  error_object (Middlewares.errorMiddleware Samples.validation_descriptor) =
    [("message", JStr "Required");
     ("extraData", JArr [lit [("message", JStr "Required")]; JUndefined])].
Proof.
  destruct (errorMiddleware_defaults Samples.validation_descriptor)
    as [Hstatus Hextra].
  split; [apply Hstatus | apply Hextra]; reflexivity.
Defined.

(** C3, as stated, fails: a descriptor may carry an [extraData] that is
    falsy (here the number 0), and then the [error] object of the response
    has no [extraData] key at all. *)
Lemma errorMiddleware_drops_falsy_extraData :
  ~ (forall err : Obj,
       has err "extraData" = true ->
       get (error_object (Middlewares.errorMiddleware err)) "extraData"
       = get err "extraData").
Proof.
  intros H.
  specialize (H [("message", JStr "quota"); ("extraData", JNum 0)] eq_refl).
  discriminate H.
Qed.

(** ** The schema guard *)

(** A body the schema accepts replaces [req.body], and the chain goes on. *)
Lemma validateSchema_parsed (schema : Schema) (req : Request) (parsed : JsVal) :
  schema (body req) = Ok parsed ->
  Middlewares.validateSchema schema req = Next (with_body req parsed).
Proof. intros H. unfold Middlewares.validateSchema. now rewrite H. Qed.

(** The descriptor of a validation failure: the first error's message, the
    whole list as [extraData], and 422 under the key [status]. *)
Lemma validateSchema_rejected (schema : Schema) (req : Request)
    (err first message : JsVal) (others : list JsVal) :
  schema (body req) = Throw err ->
  getProp err "errors" = Ok (JArr (first :: others)) ->
  getProp first "message" = Ok message ->
  Middlewares.validateSchema schema req =
    NextErr [("path", JStr (originalUrl req ++ "/middleware/validate"));
             ("status", JNum 422);
             ("message", message);
             ("extraData", JArr (first :: others))] req.
Proof.
  intros Hs He Hm. unfold Middlewares.validateSchema. rewrite Hs. simpl.
  rewrite He. simpl. rewrite Hm. reflexivity.
Qed.

(** C1, what the code does. A body that the schema accepts replaces
    [req.body] and the chain continues. A body that fails validation gives a
    descriptor with the first error's message and the full error list as
    [extraData], but its 422 sits under the key [status], which the error
    handler does not read: the pipeline renders the failure with status 400,
    not 422. *)
Theorem validateSchema_failure_renders_400 (schema : Schema) (req : Request) :
  (forall parsed,
     schema (body req) = Ok parsed ->
     Middlewares.validateSchema schema req = Next (with_body req parsed)) /\
  (forall err first message others,
     schema (body req) = Throw err ->
     getProp err "errors" = Ok (JArr (first :: others)) ->
     getProp first "message" = Ok message ->
     exists d,
       Middlewares.validateSchema schema req = NextErr d req /\
       get d "message" = message /\
       get d "extraData" = JArr (first :: others) /\
       get d "status" = JNum 422 /\
       status <$> render (Middlewares.validateSchema schema req)
       = Some (JNum 400)).
Proof.
  split.
  - apply validateSchema_parsed.
  - intros err first message others Hs He Hm.
    rewrite (validateSchema_rejected _ _ _ _ _ _ Hs He Hm).
    eexists. split; [reflexivity|]. repeat split.
Qed.

Lemma validateSchema_failure_renders_400_witness :
  Middlewares.validateSchema Samples.login_schema Samples.request
  = Next (with_body Samples.request (lit [("email", JStr "jay@example.com")])) /\
  status <$> render (Middlewares.validateSchema Samples.login_schema
                       Samples.bearer_request)
  = Some (JNum 400).
Proof.
  split.
  - apply (validateSchema_failure_renders_400 Samples.login_schema Samples.request).
    reflexivity.
  - destruct (validateSchema_failure_renders_400 Samples.login_schema
                Samples.bearer_request) as [_ H].
    destruct (H Samples.validation_error
                (lit [("path", JArr [JStr "email"]); ("message", JStr "Required")])
                (JStr "Required")
                [lit [("path", JArr [JStr "password"]); ("message", JStr "Too short")]]
                eq_refl eq_refl eq_refl) as (d & _ & _ & _ & _ & Hr).
    exact Hr.
Defined.

(** ** Exceptions inside the guards on an attached user *)

Lemma internal_failure_descriptor (e message : JsVal) (req : Request) :
  getProp e "message" = Ok message ->
  Middlewares.internal_failure e req =
    Ok (NextErr [("status", JNum 500); ("message", message); ("extraData", e)] req).
Proof. intros H. unfold Middlewares.internal_failure. now rewrite H. Qed.

(** The exceptions the two [try] blocks can raise: no user is attached, or
    the token lookup throws. *)
Lemma isVerified_try_throws (w : World) (req : Request) (e : JsVal) :
  Middlewares.isVerified_try w req = Throw e <->
  user req = None /\ e = cannot_read JUndefined "sys_id".
Proof.
  unfold Middlewares.isVerified_try, Middlewares.user_prop.
  destruct (user req) as [u|]; simpl.
  - destruct (strict_eq_false (Data.isVerified u)); simpl;
      (split; [discriminate | now intros [? _]]).
  - split; [intros [= <-]; now split | intros [_ ->]; reflexivity].
Qed.

Lemma verificationMailSent_try_throws (w : World) (req : Request) (e : JsVal) :
  Middlewares.verificationMailSent_try w req = Throw e <->
  (user req = None /\ e = cannot_read JUndefined "sys_id") \/
  (exists u, user req = Some u /\ tokens_by_userId w (sys_id u) = Throw e).
Proof.
  unfold Middlewares.verificationMailSent_try, Middlewares.user_prop.
  destruct (user req) as [u|]; simpl.
  - destruct (tokens_by_userId w (sys_id u)) as [[td|]|e'] eqn:Ht; simpl.
    + destruct (now_check w <? expiresAt td); simpl;
        (split; [discriminate | intros [[? _] | (u' & [= <-] & ?)]; congruence]).
    + split; [discriminate | intros [[? _] | (u' & [= <-] & ?)]; congruence].
    + split.
      * intros [= <-]. right. now exists u.
      * intros [[? _] | (u' & [= <-] & ?)]; congruence.
  - split.
    + intros [= <-]. now left.
    + intros [[_ ->] | (u & ? & _)]; [reflexivity | discriminate].
Qed.

(** C2, what the code does. Every exception thrown inside the [try] block
    of [isVerified] or of [verificationMailSent] is caught and passed to
    [next] as a descriptor with the exception's message, the exception as
    [extraData], and 500 under the key [status]. The descriptor has no
    [statusCode], so the response is sent with status 400, not 500. (The
    exception has a readable [message], that is, it is not [null] or
    [undefined].) *)
Theorem guard_exception_renders_400 (w : World) (req : Request)
    (e message : JsVal) :
  getProp e "message" = Ok message ->
  let d := [("status", JNum 500); ("message", message); ("extraData", e)] in
  (Middlewares.isVerified_try w req = Throw e ->
   Middlewares.isVerified w req = NextErr d req) /\
  (Middlewares.verificationMailSent_try w req = Throw e ->
   Middlewares.verificationMailSent w req = NextErr d req) /\
  has d "statusCode" = false /\
  status <$> render (NextErr d req) = Some (JNum 400).
Proof.
  intros Hm d. repeat split.
  - intros H. unfold Middlewares.isVerified. rewrite H. simpl.
    now rewrite (internal_failure_descriptor _ _ _ Hm).
  - intros H. unfold Middlewares.verificationMailSent. rewrite H. simpl.
    now rewrite (internal_failure_descriptor _ _ _ Hm).
Qed.

Lemma guard_exception_renders_400_witness :
  Middlewares.isVerified Samples.world Samples.request
  = NextErr Samples.no_user_descriptor Samples.request /\
  Middlewares.verificationMailSent Samples.world Samples.request
  = NextErr Samples.no_user_descriptor Samples.request /\
  status <$> render (NextErr Samples.no_user_descriptor Samples.request)
  = Some (JNum 400).
Proof.
  destruct (guard_exception_renders_400 Samples.world Samples.request
              Samples.no_user_error
              (JStr "Cannot read properties of undefined (reading 'sys_id')")
              eq_refl) as (H1 & H2 & _ & H4).
  split; [apply H1; reflexivity | split; [apply H2; reflexivity | exact H4]].
Defined.

(** ** Token authentication *)

Lemma split_no_space (t : string) : no_space t = true -> split_space t = [t].
Proof.
  induction t as [|c t IH]; simpl; [reflexivity|].
  intros H. apply andb_prop in H as [Hc Ht].
  apply negb_true_iff in Hc. rewrite Hc, (IH Ht). reflexivity.
Qed.

Lemma split_bearer_token (t : string) :
  no_space t = true -> nth_error (split_space ("Bearer " ++ t)) 1 = Some t.
Proof.
  intros H. simpl. change ("" +:+ t) with t.
  now rewrite (split_no_space t H).
Qed.

(** The cookie named [token] wins whenever it is a non-empty string. *)
Lemma select_token_cookie (req : Request) (c : list (string * string)) (t : string) :
  cookies req = Some c -> assoc "token" c = Some t -> t <> "" ->
  Middlewares.select_token req = Some t.
Proof.
  intros Hc Ht Hne. unfold Middlewares.select_token. rewrite Hc. simpl.
  rewrite Ht. simpl.
  destruct (String.eqb_spec t ""); [contradiction | reflexivity].
Qed.

(** Without such a cookie the second piece of the Authorization header is
    taken. *)
Lemma select_token_header (req : Request) :
  truthy (Middlewares.of_opt (c ← cookies req; assoc "token" c)) = false ->
  Middlewares.select_token req
  = h ← header req "Authorization"; nth_error (split_space h) 1.
Proof. intros H. unfold Middlewares.select_token. now rewrite H. Qed.

Lemma select_token_bearer (req : Request) (t : string) :
  truthy (Middlewares.of_opt (c ← cookies req; assoc "token" c)) = false ->
  header req "Authorization" = Some ("Bearer " ++ t) ->
  no_space t = true ->
  Middlewares.select_token req = Some t.
Proof.
  intros Hc Hh Ht. rewrite (select_token_header req Hc), Hh.
  exact (split_bearer_token t Ht).
Qed.

Lemma verifyJWT_no_token (w : World) (req : Request) :
  truthy (Middlewares.of_opt (Middlewares.select_token req)) = false ->
  Middlewares.verifyJWT w req
  = NextErr (Middlewares.jwt_failure 401 "No token provided") req.
Proof. intros H. unfold Middlewares.verifyJWT. now rewrite H. Qed.

Lemma verifyJWT_with_token (w : World) (req : Request) (t : string) :
  Middlewares.select_token req = Some t -> t <> "" ->
  Middlewares.verifyJWT w req =
    settle
      (try_catch (Middlewares.verifyJWT_try w req t)
         (fun error =>
            message ← getProp error "message";
            mret (NextErr
                    [("path", JStr "/middleware/verifyJWT");
                     ("statusCode", JNum 500);
                     ("message", message);
                     ("extraData", error)] req))).
Proof.
  intros Hs Hne. unfold Middlewares.verifyJWT. rewrite Hs. simpl.
  destruct (String.eqb_spec t ""); [contradiction | reflexivity].
Qed.

(** The outer [try] block throws exactly the exceptions of
    [jwt_exception]. *)
Lemma verifyJWT_try_throws (w : World) (req : Request) (t : string) (e : JsVal) :
  Middlewares.verifyJWT_try w req t = Throw e <-> jwt_exception w t e.
Proof.
  unfold Middlewares.verifyJWT_try. split.
  - destruct (jwt_verify w t) as [p|e'] eqn:Hv; simpl; [|discriminate].
    destruct (getProp p "id") as [id|e'] eqn:Hid; simpl.
    + destruct (truthy id) eqn:Ht; simpl; [|discriminate].
      destruct (users_by_githubId w id) as [[u|]|e'] eqn:Hu; simpl;
        try discriminate.
      intros [= <-]. eapply user_lookup_throws; eauto.
    + intros [= <-]. eapply payload_read_throws; eauto.
  - intros [p Hv Hid | p id Hv Hid Ht Hu]; rewrite Hv, Hid; simpl.
    + reflexivity.
    + rewrite Ht. simpl. now rewrite Hu.
Qed.

Lemma verifyJWT_failure_sound (w : World) (req : Request) (d : Obj) :
  jwt_failure_case w req d -> Middlewares.verifyJWT w req = NextErr d req.
Proof.
  intros [H | t e Hs Hne Hv | t p id Hs Hne Hv Hid Hf
          | t p id Hs Hne Hv Hid Ht Hu | t e m Hs Hne Hthrow Hm].
  - now apply verifyJWT_no_token.
  - rewrite (verifyJWT_with_token w req t Hs Hne).
    unfold Middlewares.verifyJWT_try. now rewrite Hv.
  - rewrite (verifyJWT_with_token w req t Hs Hne).
    unfold Middlewares.verifyJWT_try. rewrite Hv, Hid. simpl. now rewrite Hf.
  - rewrite (verifyJWT_with_token w req t Hs Hne).
    unfold Middlewares.verifyJWT_try. rewrite Hv, Hid. simpl.
    rewrite Ht. simpl. now rewrite Hu.
  - apply (verifyJWT_try_throws w req) in Hthrow.
    rewrite (verifyJWT_with_token w req t Hs Hne), Hthrow. simpl.
    now rewrite Hm.
Qed.

Lemma verifyJWT_failure_complete (w : World) (req : Request) (d : Obj)
    (req' : Request) :
  Middlewares.verifyJWT w req = NextErr d req' ->
  req' = req /\ jwt_failure_case w req d.
Proof.
  destruct (truthy (Middlewares.of_opt (Middlewares.select_token req))) eqn:Htok.
  - destruct (Middlewares.select_token req) as [t|] eqn:Hs; [|discriminate].
    assert (Hne : t <> "") by (intros ->; discriminate).
    rewrite (verifyJWT_with_token w req t Hs Hne).
    destruct (Middlewares.verifyJWT_try w req t) as [o|e] eqn:Htry; simpl.
    + intros ->. revert Htry. unfold Middlewares.verifyJWT_try.
      destruct (jwt_verify w t) as [p|e] eqn:Hv; simpl.
      * destruct (getProp p "id") as [id|e] eqn:Hid; simpl; [|discriminate].
        destruct (truthy id) eqn:Hid_t; simpl.
        -- destruct (users_by_githubId w id) as [[u|]|e] eqn:Hu; simpl;
             try discriminate.
           intros [= <- <-]. split; [reflexivity|]. eapply unknown_user; eauto.
        -- intros [= <- <-]. split; [reflexivity|]. eapply no_id; eauto.
      * intros [= <- <-]. split; [reflexivity|]. eapply verification_throws; eauto.
    + apply verifyJWT_try_throws in Htry.
      destruct (getProp e "message") as [m|e'] eqn:Hm; simpl; [|discriminate].
      intros [= <- <-]. split; [reflexivity|]. eapply internal_error; eauto.
  - rewrite (verifyJWT_no_token w req Htok).
    intros [= <- <-]. split; [reflexivity|]. now apply no_token.
Qed.

(** The promise of [verifyJWT] is rejected in one case only: the exception
    of the [try] block has no readable [message] (it is [undefined] or
    [null]), so that the [catch] block throws in turn. *)
Lemma verifyJWT_rejected (w : World) (req : Request) (x : JsVal) :
  Middlewares.verifyJWT w req = Rejected x <->
  exists t e,
    Middlewares.select_token req = Some t /\ t <> "" /\
    jwt_exception w t e /\ getProp e "message" = Throw x.
Proof.
  split.
  - destruct (truthy (Middlewares.of_opt (Middlewares.select_token req))) eqn:Htok.
    + destruct (Middlewares.select_token req) as [t|] eqn:Hs; [|discriminate].
      assert (Hne : t <> "") by (intros ->; discriminate).
      rewrite (verifyJWT_with_token w req t Hs Hne).
      destruct (Middlewares.verifyJWT_try w req t) as [o|e] eqn:Htry; simpl.
      * intros ->. revert Htry. unfold Middlewares.verifyJWT_try.
        destruct (jwt_verify w t) as [p|e]; simpl; [|discriminate].
        destruct (getProp p "id") as [id|e]; simpl; [|discriminate].
        destruct (truthy id); simpl; [|discriminate].
        destruct (users_by_githubId w id) as [[u|]|e]; discriminate.
      * apply verifyJWT_try_throws in Htry.
        destruct (getProp e "message") as [m|e'] eqn:Hm; simpl; [discriminate|].
        intros [= <-]. now exists t, e.
    + now rewrite (verifyJWT_no_token w req Htok).
  - intros (t & e & Hs & Hne & Hthrow & Hm).
    apply (verifyJWT_try_throws w req) in Hthrow.
    rewrite (verifyJWT_with_token w req t Hs Hne), Hthrow. simpl.
    now rewrite Hm.
Qed.

(** C4, as amended. [verifyJWT] takes the token from the cookie named
    [token] and otherwise from the Authorization bearer header, the cookie
    first. With neither source present it fails 401 "No token provided".
    Its failures are exactly the cases of [jwt_failure_case]: no token (401
    "No token provided"), a token whose verification throws (401 "Invalid
    token"), a verified payload without an [id] (401 "Invalid token"), an
    [id] that matches no user (401 "User not found"), and an exception
    with a readable message thrown by the read of [payload.id] or by the
    user lookup (500 with the exception's message and the exception as
    [extraData]). When that exception is [undefined] or [null], the
    [catch] block cannot read its message and the promise is rejected: the
    guard then neither fails nor continues. *)
Theorem verifyJWT_failure_cases (w : World) (req : Request) :
  (forall c t,
     cookies req = Some c -> assoc "token" c = Some t -> t <> "" ->
     Middlewares.select_token req = Some t) /\
  (forall t,
     truthy (Middlewares.of_opt (c ← cookies req; assoc "token" c)) = false ->
     header req "Authorization" = Some ("Bearer " ++ t) ->
     no_space t = true ->
     Middlewares.select_token req = Some t) /\
  ((c ← cookies req; assoc "token" c) = None ->
   header req "Authorization" = None ->
   Middlewares.verifyJWT w req
   = NextErr (Middlewares.jwt_failure 401 "No token provided") req) /\
  (forall d req',
     Middlewares.verifyJWT w req = NextErr d req' <->
     req' = req /\ jwt_failure_case w req d) /\
  (forall x,
     Middlewares.verifyJWT w req = Rejected x <->
     exists t e,
       Middlewares.select_token req = Some t /\ t <> "" /\
       jwt_exception w t e /\ (e = JUndefined \/ e = JNull) /\
       x = cannot_read e "message").
Proof.
  split; [|split; [|split; [|split]]].
  - apply select_token_cookie.
  - apply select_token_bearer.
  - intros Hc Hh. apply verifyJWT_no_token.
    unfold Middlewares.select_token. now rewrite Hc, Hh.
  - intros d req'. split.
    + apply verifyJWT_failure_complete.
    + intros [-> H]. now apply verifyJWT_failure_sound.
  - intros x. rewrite verifyJWT_rejected. split.
    + intros (t & e & Hs & Hne & He & Hm). exists t, e.
      repeat split; try assumption;
        destruct e; simpl in Hm; try discriminate Hm;
        injection Hm as <-; auto.
    + intros (t & e & Hs & Hne & He & Hnull & ->). exists t, e.
      repeat split; try assumption. now destruct Hnull as [-> | ->].
Qed.

Lemma verifyJWT_failure_cases_witness :
  Middlewares.select_token Samples.request = Some "good" /\
  Middlewares.select_token Samples.bearer_request = Some "good" /\
  Middlewares.verifyJWT Samples.world Samples.storm_request
  = NextErr [("path", JStr "/middleware/verifyJWT"); ("statusCode", JNum 500);
             ("message", JStr "Can't reach database server");
             ("extraData", Samples.database_down)] Samples.storm_request.
Proof.
  split; [|split].
  - destruct (verifyJWT_failure_cases Samples.world Samples.request) as [H _].
    apply (H [("token", "good")]); [reflexivity | reflexivity | discriminate].
  - destruct (verifyJWT_failure_cases Samples.world Samples.bearer_request)
      as (_ & H & _).
    apply (H "good"); reflexivity.
  - destruct (verifyJWT_failure_cases Samples.world Samples.storm_request)
      as (_ & _ & _ & H & _).
    apply H. split; [reflexivity|].
    apply (internal_error _ _ "storm" Samples.database_down);
      [reflexivity | discriminate | | reflexivity].
    apply (user_lookup_throws _ _ _ (lit [("id", JStr "storm")]) (JStr "storm"));
      reflexivity.
Defined.

(** C4, as stated, fails: the four 401 cases are not all the failures. When
    the user lookup throws, [verifyJWT] fails with a 500 descriptor. *)
Lemma verifyJWT_lookup_failure_is_500 :
  ~ (forall (w : World) (req : Request) (d : Obj) (req' : Request),
       Middlewares.verifyJWT w req = NextErr d req' ->
       In d [Middlewares.jwt_failure 401 "No token provided";
             Middlewares.jwt_failure 401 "Invalid token";
             Middlewares.jwt_failure 401 "User not found"]).
Proof.
  intros H.
  specialize (H Samples.world Samples.storm_request _ _ eq_refl).
  simpl in H. destruct H as [H | [H | [H | []]]]; discriminate H.
Qed.

(** ** The attached user *)

Lemma verifyJWT_success (w : World) (req req' : Request) :
  Middlewares.verifyJWT w req = Next req' ->
  exists t payload id u,
    Middlewares.select_token req = Some t /\
    jwt_verify w t = Ok payload /\
    getProp payload "id" = Ok id /\
    users_by_githubId w id = Ok (Some u) /\
    req' = with_user req u.
Proof.
  destruct (truthy (Middlewares.of_opt (Middlewares.select_token req))) eqn:Htok.
  - destruct (Middlewares.select_token req) as [t|] eqn:Hs; [|discriminate].
    assert (Hne : t <> "") by (intros ->; discriminate).
    rewrite (verifyJWT_with_token w req t Hs Hne).
    unfold Middlewares.verifyJWT_try.
    destruct (jwt_verify w t) as [p|e] eqn:Hv; simpl; [|discriminate].
    destruct (getProp p "id") as [id|e] eqn:Hid; simpl.
    + destruct (truthy id); simpl; [|discriminate].
      destruct (users_by_githubId w id) as [[u|]|e] eqn:Hu; simpl.
      * intros [= <-]. now exists t, p, id, u.
      * discriminate.
      * destruct (getProp e "message"); discriminate.
    + destruct (getProp e "message"); discriminate.
  - now rewrite (verifyJWT_no_token w req Htok).
Qed.

Lemma isUser_success (w : World) (req req' : Request) :
  Middlewares.isUser w req = Next req' -> exists u, req' = with_user req u.
Proof.
  unfold Middlewares.isUser, Middlewares.isUser_try.
  destruct (Middlewares.destructure_email (body req)) as [em|e]; simpl.
  - destruct (Middlewares.call_toLowerCase w em) as [l|e]; simpl.
    + destruct (users_by_email w l) as [[u|]|e]; simpl.
      * intros [= <-]. now exists u.
      * discriminate.
      * destruct (getProp e "stack"); simpl; [|discriminate].
        destruct (getProp e "message"); discriminate.
    + destruct (getProp e "stack"); simpl; [|discriminate].
      destruct (getProp e "message"); discriminate.
  - destruct (getProp e "stack"); simpl; [|discriminate].
    destruct (getProp e "message"); discriminate.
Qed.

(** A guard that continues leaves an attached user attached. *)
Lemma run_guard_keeps_user (w : World) (g : Guard) (st st' : Store)
    (hs : list (string * string)) (req req' : Request) :
  run_guard w g st req = (st', hs, Next req') ->
  user req <> None -> user req' <> None.
Proof.
  destruct g; simpl.
  - intros [= _ _ H] _. apply verifyJWT_success in H as (? & ? & ? & u & _ & _ & _ & _ & ->).
    discriminate.
  - intros [= _ _ H] _. apply isUser_success in H as (u & ->). discriminate.
  - intros [= _ _ H] Hu. enough (req' = req) as -> by exact Hu.
    revert H.
    unfold Middlewares.isVerified, Middlewares.isVerified_try, Middlewares.user_prop.
    destruct (user req) as [u|]; simpl; [|discriminate].
    destruct (strict_eq_false (Data.isVerified u)); simpl; [discriminate|].
    now intros [= <-].
  - intros [= _ _ H] Hu. enough (req' = req) as -> by exact Hu.
    revert H.
    unfold Middlewares.verificationMailSent, Middlewares.verificationMailSent_try,
      Middlewares.user_prop.
    destruct (user req) as [u|]; simpl; [|discriminate].
    destruct (tokens_by_userId w (sys_id u)) as [[td|]|e]; simpl.
    + destruct (now_check w <? expiresAt td); simpl; [discriminate|].
      now intros [= <-].
    + now intros [= <-].
    + unfold Middlewares.internal_failure.
      destruct (getProp e "message"); discriminate.
  - intros [= _ _ H] Hu. revert H. unfold Middlewares.validateSchema.
    destruct (schema (body req)) as [b|e]; simpl.
    + intros [= <-]. exact Hu.
    + destruct (getProp e "errors") as [es|]; simpl; [|discriminate].
      destruct (getIdx es 0) as [f|]; simpl; [|discriminate].
      destruct (getProp f "message"); discriminate.
  - intros H Hu. enough (req' = req) as -> by exact Hu.
    revert H. unfold Middlewares.rateLimiting, Middlewares.rateLimit.
    destruct (Middlewares.skip _ req) as [[|]|e]; [| |discriminate].
    + now intros [= _ _ <-].
    + destruct (Middlewares.keyGenerator _ req) as [k|e]; [|discriminate].
      match goal with |- context [if ?b then _ else _] => destruct b end;
        [discriminate | now intros [= _ _ <-]].
Qed.

Lemma invocations_keep_user (w : World) (gs : list Guard) :
  forall (st : Store) (req : Request),
    user req <> None ->
    Forall (fun gr => user (snd gr) <> None) (invocations w gs st req).
Proof.
  induction gs as [|g gs IH]; intros st req Hu; simpl; constructor.
  - exact Hu.
  - destruct (run_guard w g st req) as [[st' hs] [req'| | |]] eqn:Hg;
      try constructor.
    apply IH. eapply run_guard_keeps_user; eauto.
Qed.

(** C5. When [verifyJWT] calls [next()], the request it passes on carries
    the user record found for the token's [id], and every guard invoked
    later in the same chain is given a request whose [user] is not
    [undefined]. *)
Theorem verifyJWT_attaches_user (w : World) (req req' : Request) :
  Middlewares.verifyJWT w req = Next req' ->
  (exists t payload id u,
     Middlewares.select_token req = Some t /\
     jwt_verify w t = Ok payload /\
     getProp payload "id" = Ok id /\
     users_by_githubId w id = Ok (Some u) /\
     req' = with_user req u /\ user req' = Some u) /\
  (forall (gs : list Guard) (st : Store),
     Forall (fun gr => user (snd gr) <> None) (invocations w gs st req')).
Proof.
  intros H. apply verifyJWT_success in H as (t & p & id & u & Hs & Hv & Hid & Hu & ->).
  split.
  - exists t, p, id, u. now repeat split.
  - intros gs st. now apply invocations_keep_user.
Qed.

Lemma verifyJWT_attaches_user_witness :
  user Samples.jay_request = Some Samples.jay /\
  Forall (fun gr => user (snd gr) <> None)
    (invocations Samples.world
       [IsVerified; ValidateSchema Samples.login_schema; RateLimiting; IsUser]
       ∅ Samples.jay_request).
Proof.
  destruct (verifyJWT_attaches_user Samples.world Samples.request
              Samples.jay_request eq_refl) as [_ H].
  split; [reflexivity | apply H].
Defined.

(** ** Lookup by email *)

(** C6. When the body's [email], lower-cased by [toLowerCase], matches no
    user, [isUser] writes the 400 "User not found" response itself: it
    calls neither [next()] nor [next(err)], so the chain ends with that
    response and the error handler has no part in it. When the email
    matches, the chain continues with the same request, the user found now
    attached as [req.user]. *)
Theorem isUser_lookup (w : World) (req : Request) (e : string) :
  Middlewares.destructure_email (body req) = Ok (JStr e) ->
  (users_by_email w (toLowerCase w e) = Ok None ->
   Middlewares.isUser w req = Sent user_not_found /\
   forall gs st hs,
     run_chain w (IsUser :: gs) st hs req
     = (st, Answered (add_headers hs user_not_found))) /\
  (forall u,
     users_by_email w (toLowerCase w e) = Ok (Some u) ->
     Middlewares.isUser w req
     = Next {| body := body req; cookies := cookies req;
               headers := headers req; originalUrl := originalUrl req;
               user := Some u |}).
Proof.
  intros He. split.
  - intros Hnone.
    assert (H : Middlewares.isUser w req = Sent user_not_found).
    { unfold Middlewares.isUser, Middlewares.isUser_try.
      rewrite He. simpl. now rewrite Hnone. }
    split; [exact H|]. intros gs st hs. simpl. now rewrite H.
  - intros u Hu. unfold Middlewares.isUser, Middlewares.isUser_try.
    rewrite He. simpl. now rewrite Hu.
Qed.

Lemma isUser_lookup_witness :
  Middlewares.isUser Samples.world Samples.request
  = Next {| body := lit [("email", JStr "Jay@Example.com")];
            cookies := Some [("token", "good")];
            headers := [("authorization", "Bearer ghost")];
            originalUrl := "/auth/login";
            user := Some Samples.jay |} /\
  Middlewares.isUser Samples.world Samples.stranger_request = Sent user_not_found.
Proof.
  split.
  - apply (isUser_lookup Samples.world Samples.request "Jay@Example.com");
      reflexivity.
  - apply (isUser_lookup Samples.world Samples.stranger_request
             "Nobody@Example.com"); reflexivity.
Defined.

(** The exceptions of a body without a usable [email]. *)
Lemma email_unusable (w : World) (b : JsVal) :
  (forall s, Middlewares.destructure_email b <> Ok (JStr s)) ->
  exists msg,
    msg <> "" /\
    (email ← Middlewares.destructure_email b; Middlewares.call_toLowerCase w email)
    = Throw (error "TypeError" msg).
Proof.
  intros H.
  destruct (Middlewares.destructure_email b) as [email|e] eqn:Hb.
  - destruct email; simpl;
      try (eexists; split; [|reflexivity]; discriminate).
    now destruct (H s).
  - destruct b; simpl in Hb; try discriminate;
      try (destruct (String.eqb "email" "length"); discriminate);
      injection Hb as <-; (eexists; split; [|reflexivity]; discriminate).
Qed.

(** C10. When the body has no [email] that is a string, [isUser] does not
    continue the chain and its promise is not rejected: the TypeError is
    caught and given to [next] as a descriptor with the exception's message
    and the exception itself as [extraData]; the error handler answers it
    with status 400 and that [extraData] in the [error] object. *)
Theorem isUser_without_email (w : World) (req : Request) :
  (forall s, Middlewares.destructure_email (body req) <> Ok (JStr s)) ->
  exists msg,
    let e := error "TypeError" msg in
    let d := [("status", JNum 400); ("message", JStr msg); ("extraData", e)] in
    Middlewares.isUser w req = NextErr d req /\
    status (Middlewares.errorMiddleware d) = JNum 400 /\
    error_object (Middlewares.errorMiddleware d)
    = [("message", JStr msg); ("extraData", e)].
Proof.
  intros H. destruct (email_unusable w (body req) H) as (msg & Hne & Hthrow).
  exists msg. simpl. split; [|split].
  - unfold Middlewares.isUser, Middlewares.isUser_try.
    destruct (Middlewares.destructure_email (body req)) as [email|e0]; simpl in *.
    + now rewrite Hthrow.
    + now injection Hthrow as ->.
  - reflexivity.
  - destruct msg as [|c msg]; [contradiction | reflexivity].
Qed.

Lemma isUser_without_email_witness :
  exists msg,
    Middlewares.isUser Samples.world Samples.bearer_request
    = NextErr [("status", JNum 400); ("message", JStr msg);
               ("extraData", error "TypeError" msg)] Samples.bearer_request /\
    status (Middlewares.errorMiddleware
              [("status", JNum 400); ("message", JStr msg);
               ("extraData", error "TypeError" msg)]) = JNum 400.
Proof.
  destruct (isUser_without_email Samples.world Samples.bearer_request)
    as (msg & H1 & H2 & _).
  - intros s. discriminate.
  - exists msg. split; [exact H1 | exact H2].
Defined.

Example isUser_missing_email_message :
  Middlewares.isUser Samples.world Samples.bearer_request
  = NextErr [("status", JNum 400);
             ("message",
              JStr "Cannot read properties of undefined (reading 'toLowerCase')");
             ("extraData", cannot_read JUndefined "toLowerCase")]
      Samples.bearer_request.
Proof. reflexivity. Qed.

(** ** Verification state *)

(** C7. With a user attached: if its [isVerified] is [false], the guard
    fails with the descriptor 400 "User is not verified", which the error
    handler answers with status 400; for any other value ([true], [null],
    [undefined], ...) the guard calls [next()] with the request unchanged. *)
Theorem isVerified_gate (w : World) (req : Request) (u : User) :
  user req = Some u ->
  let d := [("path", JStr "/middleware/isVerified");
            ("statusCode", JNum 400);
            ("message", JStr "User is not verified")] in
  (Data.isVerified u = JBool false ->
   Middlewares.isVerified w req = NextErr d req /\
   status (Middlewares.errorMiddleware d) = JNum 400) /\
  (Data.isVerified u <> JBool false ->
   Middlewares.isVerified w req = Next req).
Proof.
  intros Hu d.
  unfold Middlewares.isVerified, Middlewares.isVerified_try, Middlewares.user_prop.
  rewrite Hu. simpl. split.
  - intros ->. now split.
  - intros Hne. destruct (Data.isVerified u) as [ | | [|] | | | | ];
      try reflexivity. now destruct Hne.
Qed.

Lemma isVerified_gate_witness :
  Middlewares.isVerified Samples.world Samples.newcomer_request
  = NextErr [("path", JStr "/middleware/isVerified");
             ("statusCode", JNum 400);
             ("message", JStr "User is not verified")]
      Samples.newcomer_request /\
  Middlewares.isVerified Samples.world Samples.jay_request
  = Next Samples.jay_request.
Proof.
  split.
  - apply (isVerified_gate Samples.world Samples.newcomer_request
             Samples.newcomer); reflexivity.
  - apply (isVerified_gate Samples.world Samples.jay_request Samples.jay);
      [reflexivity | discriminate].
Defined.

(** ** The cooldown of the verification mail *)

Lemma newDate_valid (t : Z) :
  Z.abs t <= Middlewares.max_time -> Middlewares.newDate t = Some t.
Proof.
  intros H. unfold Middlewares.newDate.
  now destruct (Z.leb_spec (Z.abs t) Middlewares.max_time); [|lia].
Qed.

(** The text for a valid difference [t]: the minute and the second of the
    local time [t] milliseconds after the epoch. *)
Lemma left_text_valid (w : World) (t : Z) :
  let local := t + localTZA w t in
  let M := (local / 60000) mod 60 in
  let S := (local / 1000) mod 60 in
  Middlewares.left_text w (Some t)
  = if M =? 0 then show_Z S ++ " seconds"
    else show_Z M ++ ":" ++ show_Z S ++ " minutes".
Proof.
  unfold Middlewares.left_text. simpl.
  now destruct (_ =? 0).
Qed.

Lemma minute_second_range (local : Z) :
  0 <= (local / 60000) mod 60 < 60 /\ 0 <= (local / 1000) mod 60 < 60.
Proof. split; apply Z.mod_pos_bound; lia. Qed.

(** C8. With a user attached: if a token record exists for the user and its
    [expiresAt] is later than the clock, the guard fails with a 400
    descriptor whose message ends with the time left, [expiresAt] minus the
    clock, as "M:S minutes" when the minute of the local time that many
    milliseconds after the epoch is not 0 and as "S seconds" otherwise, M
    and S being the minute and the second of that local time; the error
    handler answers it with status 400. If no record exists, or
    [expiresAt] is not later than the clock, the guard calls [next()]. (The
    clock readings are valid dates not before 1970, and so is
    [expiresAt].) *)
Theorem verificationMailSent_cooldown (w : World) (req : Request) (u : User) :
  user req = Some u ->
  (forall td,
     tokens_by_userId w (sys_id u) = Ok (Some td) ->
     now_check w < expiresAt td ->
     0 <= now_check w -> 0 <= now_left w <= Middlewares.max_time ->
     expiresAt td <= Middlewares.max_time ->
     let delta := expiresAt td - now_left w in
     let local := delta + localTZA w delta in
     let M := (local / 60000) mod 60 in
     let S := (local / 1000) mod 60 in
     let d := [("path", JStr "/middleWare/verificationMailSent");
               ("statusCode", JNum 400);
               ("message",
                JStr ("Verification mail already sent, you can resend it after "
                      ++ (if M =? 0 then show_Z S ++ " seconds"
                          else show_Z M ++ ":" ++ show_Z S ++ " minutes")))] in
     Middlewares.verificationMailSent w req = NextErr d req /\
     status (Middlewares.errorMiddleware d) = JNum 400) /\
  (tokens_by_userId w (sys_id u) = Ok None ->
   Middlewares.verificationMailSent w req = Next req) /\
  (forall td,
     tokens_by_userId w (sys_id u) = Ok (Some td) ->
     expiresAt td <= now_check w ->
     Middlewares.verificationMailSent w req = Next req).
Proof.
  intros Hu.
  split; [|split].
  - intros td Ht Hlt Hc Hl He delta local M S d.
    unfold Middlewares.verificationMailSent, Middlewares.verificationMailSent_try,
      Middlewares.user_prop.
    rewrite Hu. simpl. rewrite Ht. simpl.
    destruct (Z.ltb_spec (now_check w) (expiresAt td)); [|lia]. simpl.
    rewrite newDate_valid by lia.
    rewrite (left_text_valid w (expiresAt td - now_left w)). now split.
  - intros Ht.
    unfold Middlewares.verificationMailSent, Middlewares.verificationMailSent_try,
      Middlewares.user_prop.
    rewrite Hu. simpl. now rewrite Ht.
  - intros td Ht Hle.
    unfold Middlewares.verificationMailSent, Middlewares.verificationMailSent_try,
      Middlewares.user_prop.
    rewrite Hu. simpl. rewrite Ht. simpl.
    now destruct (Z.ltb_spec (now_check w) (expiresAt td)); [lia|].
Qed.

Lemma verificationMailSent_cooldown_witness :
  Middlewares.verificationMailSent Samples.world Samples.newcomer_request
  = NextErr [("path", JStr "/middleWare/verificationMailSent");
             ("statusCode", JNum 400);
             ("message",
              JStr "Verification mail already sent, you can resend it after 1:34 minutes")]
      Samples.newcomer_request /\
  Middlewares.verificationMailSent Samples.world Samples.jay_request
  = Next Samples.jay_request.
Proof.
  destruct (verificationMailSent_cooldown Samples.world
              Samples.newcomer_request Samples.newcomer eq_refl)
    as [Hblock _].
  destruct (verificationMailSent_cooldown Samples.world
              Samples.jay_request Samples.jay eq_refl)
    as (_ & Hnone & _).
  split.
  - apply (Hblock {| userId := "u-18"; expiresAt := 1700000300000 |});
      [reflexivity | reflexivity | discriminate | split; discriminate | discriminate].
  - apply Hnone. reflexivity.
Defined.

(** ** Rate limiting *)











(** ** Runs of whole chains *)

(** The minute shown is the minute of a clock, not a count: an hour and
    five seconds left read as "5 seconds" in UTC, and 95 seconds left read
    as "31:35 minutes" where local time is half an hour off the hour. *)
Example cooldown_hour_wraps :
  message_of (Middlewares.verificationMailSent
                (Samples.at_time (1700000300000 - 3605000))
                (with_user Samples.request Samples.newcomer))
  = JStr "Verification mail already sent, you can resend it after 5 seconds".
Proof. reflexivity. Qed.

Example cooldown_half_hour_zone :
  message_of (Middlewares.verificationMailSent (Samples.east 95000)
                (with_user Samples.request Samples.newcomer))
  = JStr "Verification mail already sent, you can resend it after 31:35 minutes".
Proof. reflexivity. Qed.

Example chain_login :
  snd (run_chain Samples.world
         [VerifyJWT; IsVerified; ValidateSchema Samples.login_schema; RateLimiting]
         ∅ [] Samples.request)
  = Handler
      (with_body (with_user Samples.request Samples.jay)
         (lit [("email", JStr "jay@example.com")]))
      [("RateLimit-Limit", "2"); ("RateLimit-Remaining", "1");
       ("RateLimit-Reset", "120")].
Proof. reflexivity. Qed.

Example chain_invalid_body :
  match snd (run_chain Samples.world
               [VerifyJWT; ValidateSchema Samples.login_schema]
               ∅ [] Samples.bearer_request) with
  | Answered r => Some (status r, get (error_object r) "message")
  | _ => None
  end = Some (JNum 400, JStr "Required").
Proof. reflexivity. Qed.

Example chain_unknown_token :
  match snd (run_chain Samples.world [VerifyJWT; IsVerified] ∅ []
               (with_body Samples.storm_request JNull)) with
  | Answered r => Some (status r)
  | _ => None
  end = Some (JNum 500).
Proof. reflexivity. Qed.

(** * Further properties of the guards *)

(** ** The schema guard when the error has no issues *)

(** X1. When the schema rejects with an error whose [errors] is
    [undefined], [null] or an empty list, the [catch] block of
    [validateSchema] throws while it reads [err.errors[0].message]: the
    promise is rejected with a TypeError, [next] is never called and no
    response is written. *)
Theorem validateSchema_unreadable_error (schema : Schema) (req : Request)
    (err : JsVal) :
  schema (body req) = Throw err ->
  (getProp err "errors" = Ok JUndefined \/
   getProp err "errors" = Ok JNull \/
   getProp err "errors" = Ok (JArr [])) ->
  exists msg,
    Middlewares.validateSchema schema req = Rejected (error "TypeError" msg) /\
    render (Middlewares.validateSchema schema req) = None /\
    forall w gs st hs,
      snd (run_chain w (ValidateSchema schema :: gs) st hs req)
      = Stalled (error "TypeError" msg).
Proof.
  intros Hs He.
  assert (H : exists msg, Middlewares.validateSchema schema req
                          = Rejected (error "TypeError" msg)).
  { unfold Middlewares.validateSchema. rewrite Hs. simpl.
    destruct He as [He | [He | He]]; rewrite He; simpl; eexists; reflexivity. }
  destruct H as (msg & H). exists msg. split; [exact H|]. split.
  - now rewrite H.
  - intros w gs st hs. simpl. now rewrite H.
Qed.

Lemma validateSchema_unreadable_error_witness :
  exists msg,
    Middlewares.validateSchema Cases.crashing_schema Samples.request
    = Rejected (error "TypeError" msg) /\
    render (Middlewares.validateSchema Cases.crashing_schema Samples.request)
    = None.
Proof.
  destruct (validateSchema_unreadable_error Cases.crashing_schema Samples.request
              (error "RangeError" "Maximum call stack size exceeded") eq_refl)
    as (msg & H1 & H2 & _).
  - left. reflexivity.
  - exists msg. split; [exact H1 | exact H2].
Defined.

(** ** What the error handler always sends *)

Lemma get_set_other (fs : Obj) (k k' : string) (v : JsVal) :
  k' <> k -> get (set fs k v) k' = get fs k'.
Proof.
  intros Hne. unfold get.
  induction fs as [|[k0 v0] fs IH]; simpl.
  - destruct (String.eqb_spec k' k); [contradiction | reflexivity].
  - destruct (String.eqb_spec k k0) as [->|Hk]; simpl.
    + destruct (String.eqb_spec k' k0); [contradiction | reflexivity].
    + destruct (String.eqb k' k0); [reflexivity | exact IH].
Qed.

(** X2. Whatever the descriptor, the status [errorMiddleware] sends is
    truthy: it is the descriptor's [statusCode] when that is truthy and 400
    in every other case (absent, [undefined], [null], 0, the empty
    string). *)
Theorem errorMiddleware_status_truthy (err : Obj) :
  truthy (status (Middlewares.errorMiddleware err)) = true /\
  (truthy (get err "statusCode") = true ->
   status (Middlewares.errorMiddleware err) = get err "statusCode") /\
  (truthy (get err "statusCode") = false ->
   status (Middlewares.errorMiddleware err) = JNum 400).
Proof.
  destruct (truthy (get err "statusCode")) eqn:Hsc.
  - rewrite (errorMiddleware_status_given err Hsc).
    split; [exact Hsc | split; [reflexivity | discriminate]].
  - rewrite (errorMiddleware_status_default err Hsc).
    split; [reflexivity | split; [discriminate | reflexivity]].
Qed.

Lemma errorMiddleware_status_truthy_witness :
  status (Middlewares.errorMiddleware
            [("statusCode", JNum 0); ("message", JStr "quota")]) = JNum 400 /\
  status (Middlewares.errorMiddleware
            (Middlewares.jwt_failure 401 "Invalid token")) = JNum 401.
Proof.
  split.
  - apply (errorMiddleware_status_truthy
             [("statusCode", JNum 0); ("message", JStr "quota")]).
    reflexivity.
  - apply (errorMiddleware_status_truthy
             (Middlewares.jwt_failure 401 "Invalid token")).
    reflexivity.
Defined.

Lemma assignMergeValue_get_other (object : Obj) (k k' : string) (v : JsVal) :
  k' <> k -> get (Lodash.assignMergeValue object k v) k' = get object k'.
Proof.
  intros Hne. unfold Lodash.assignMergeValue.
  destruct v; try (now apply get_set_other).
  destruct (has object k); [reflexivity | now apply get_set_other].
Qed.

(** X3. The [error] object of every response has a truthy [message]: the
    descriptor's [message] when that is truthy, and "Something went wrong"
    otherwise, whether or not an [extraData] is merged in. *)
Theorem errorMiddleware_message_always (err : Obj) :
  get (error_object (Middlewares.errorMiddleware err)) "message"
  = or_else (get err "message") (JStr "Something went wrong") /\
  truthy (get (error_object (Middlewares.errorMiddleware err)) "message") = true.
Proof.
  assert (H : get (error_object (Middlewares.errorMiddleware err)) "message"
              = or_else (get err "message") (JStr "Something went wrong")).
  { unfold Middlewares.errorMiddleware, error_object. simpl.
    destruct (truthy (get err "extraData")); [|reflexivity].
    simpl. now rewrite assignMergeValue_get_other by discriminate. }
  split; [exact H|]. rewrite H. unfold or_else.
  now destruct (truthy (get err "message")) eqn:Hm.
Qed.

(** ** The token in the Authorization header *)

Lemma split_space_app (a b : string) :
  no_space a = true ->
  split_space (a ++ String " "%char b) = a :: split_space b.
Proof.
  induction a as [|c a IH]; intros H.
  - reflexivity.
  - simpl in H. apply andb_prop in H as [Hc Ha]. apply negb_true_iff in Hc.
    change (String c a +:+ String " "%char b)
      with (String c (a +:+ String " "%char b)).
    simpl. rewrite Hc. change (a +:+ String " "%char b) with (a ++ String " "%char b).
    now rewrite (IH Ha).
Qed.

(** X4. The scheme of the Authorization header is not looked at, and
    everything after the second word is ignored: without a cookie token,
    the token is the word after the first space, whatever comes before and
    after it. *)
Theorem select_token_any_scheme (req : Request) (scheme t rest : string) :
  truthy (Middlewares.of_opt (c ← cookies req; assoc "token" c)) = false ->
  no_space scheme = true -> no_space t = true ->
  (header req "Authorization" = Some (scheme ++ " " ++ t) ->
   Middlewares.select_token req = Some t) /\
  (header req "Authorization" = Some (scheme ++ " " ++ t ++ " " ++ rest) ->
   Middlewares.select_token req = Some t).
Proof.
  intros Hc Hs Ht. split; intros Hh;
    rewrite (select_token_header req Hc), Hh; simpl.
  - change (" " +:+ t) with (String " "%char t).
    rewrite (split_space_app scheme t Hs), (split_no_space t Ht). reflexivity.
  - change (" " +:+ t +:+ " " +:+ rest)
      with (String " "%char (t ++ String " "%char rest)).
    rewrite (split_space_app scheme _ Hs), (split_space_app t rest Ht).
    reflexivity.
Qed.

Lemma select_token_any_scheme_witness :
  Middlewares.select_token Cases.basic_request = Some "good".
Proof.
  apply (select_token_any_scheme Cases.basic_request "Basic" "good" "extra");
    reflexivity.
Defined.

(** X5. Without a cookie token, an Authorization header that is one word
    (the bare token, no scheme) or a scheme followed by a space and nothing
    yields no token: [verifyJWT] fails 401 "No token provided" although the
    header is there. *)
Theorem verifyJWT_header_without_token (w : World) (req : Request) (h : string) :
  truthy (Middlewares.of_opt (c ← cookies req; assoc "token" c)) = false ->
  no_space h = true ->
  (header req "Authorization" = Some h \/
   header req "Authorization" = Some (h ++ " ")) ->
  Middlewares.verifyJWT w req
  = NextErr (Middlewares.jwt_failure 401 "No token provided") req.
Proof.
  intros Hc Hh Hd. apply verifyJWT_no_token.
  rewrite (select_token_header req Hc).
  destruct Hd as [-> | ->]; simpl.
  - now rewrite (split_no_space h Hh).
  - change (" " : string) with (String " "%char "").
    now rewrite (split_space_app h "" Hh).
Qed.

Lemma verifyJWT_header_without_token_witness :
  Middlewares.verifyJWT Samples.world Cases.raw_header_request
  = NextErr (Middlewares.jwt_failure 401 "No token provided")
      Cases.raw_header_request.
Proof.
  apply (verifyJWT_header_without_token Samples.world Cases.raw_header_request
           "good"); [reflexivity | reflexivity | left; reflexivity].
Defined.

(** X6. A non-empty cookie token is the only token tried: when its
    verification throws, [verifyJWT] fails 401 "Invalid token" whatever the
    Authorization header holds, a valid token included. *)
Theorem verifyJWT_stale_cookie (w : World) (req : Request)
    (c : list (string * string)) (t : string) (e : JsVal) :
  cookies req = Some c -> assoc "token" c = Some t -> t <> "" ->
  jwt_verify w t = Throw e ->
  Middlewares.verifyJWT w req
  = NextErr (Middlewares.jwt_failure 401 "Invalid token") req.
Proof.
  intros Hc Ht Hne Hv.
  rewrite (verifyJWT_with_token w req t (select_token_cookie req c t Hc Ht Hne) Hne).
  unfold Middlewares.verifyJWT_try. now rewrite Hv.
Qed.

Lemma verifyJWT_stale_cookie_witness :
  header Cases.stale_cookie_request "Authorization" = Some "Bearer good" /\
  Middlewares.verifyJWT Samples.world Cases.stale_cookie_request
  = NextErr (Middlewares.jwt_failure 401 "Invalid token")
      Cases.stale_cookie_request.
Proof.
  split; [reflexivity|].
  apply (verifyJWT_stale_cookie Samples.world Cases.stale_cookie_request
           [("token", "expired")] "expired"
           (error "JsonWebTokenError" "jwt malformed"));
    [reflexivity | reflexivity | discriminate | reflexivity].
Defined.

(** ** What [verifyJWT] depends on *)

Lemma verifyJWT_success_token (w : World) (req req' : Request) :
  Middlewares.verifyJWT w req = Next req' ->
  exists t payload id u,
    Middlewares.select_token req = Some t /\ t <> "" /\
    jwt_verify w t = Ok payload /\
    getProp payload "id" = Ok id /\ truthy id = true /\
    users_by_githubId w id = Ok (Some u) /\
    req' = with_user req u.
Proof.
  destruct (truthy (Middlewares.of_opt (Middlewares.select_token req))) eqn:Htok.
  - destruct (Middlewares.select_token req) as [t|] eqn:Hs; [|discriminate].
    assert (Hne : t <> "") by (intros ->; discriminate).
    rewrite (verifyJWT_with_token w req t Hs Hne).
    unfold Middlewares.verifyJWT_try.
    destruct (jwt_verify w t) as [p|e] eqn:Hv; simpl; [|discriminate].
    destruct (getProp p "id") as [id|e] eqn:Hid; simpl.
    + destruct (truthy id) eqn:Hid_t; simpl; [|discriminate].
      destruct (users_by_githubId w id) as [[u|]|e] eqn:Hu; simpl.
      * intros [= <-]. now exists t, p, id, u.
      * discriminate.
      * destruct (getProp e "message"); discriminate.
    + destruct (getProp e "message"); discriminate.
  - now rewrite (verifyJWT_no_token w req Htok).
Qed.

Lemma select_token_same (req1 req2 : Request) :
  cookies req1 = cookies req2 -> headers req1 = headers req2 ->
  Middlewares.select_token req1 = Middlewares.select_token req2.
Proof.
  intros Hc Hh. unfold Middlewares.select_token, header. now rewrite Hc, Hh.
Qed.

Lemma jwt_failure_case_same (w : World) (req1 req2 : Request) (d : Obj) :
  Middlewares.select_token req1 = Middlewares.select_token req2 ->
  jwt_failure_case w req1 d -> jwt_failure_case w req2 d.
Proof.
  intros Hsel [H | t e Hs Hne Hv | t p id Hs Hne Hv Hid Hf
               | t p id Hs Hne Hv Hid Ht Hu | t e m Hs Hne Hthrow Hm];
    rewrite Hsel in *.
  - now apply no_token.
  - eapply verification_throws; eauto.
  - eapply no_id; eauto.
  - eapply unknown_user; eauto.
  - eapply internal_error; eauto.
Qed.

(** X7. [verifyJWT] looks at the cookies and the headers of a request and
    at nothing else: given the same answers from [jwt.verify] and from the
    user store, two requests with the same cookies and headers, whatever
    their body, URL and attached user, get the same answer, be it the user
    attached, the descriptor of the failure or the rejection. *)
Theorem verifyJWT_reads_token_only (w : World) (req1 req2 : Request) :
  cookies req1 = cookies req2 -> headers req1 = headers req2 ->
  (forall r1,
     Middlewares.verifyJWT w req1 = Next r1 ->
     exists u,
       user r1 = Some u /\
       Middlewares.verifyJWT w req2
       = Next {| body := body req2; cookies := cookies req2;
                 headers := headers req2; originalUrl := originalUrl req2;
                 user := Some u |}) /\
  (forall d r1,
     Middlewares.verifyJWT w req1 = NextErr d r1 ->
     Middlewares.verifyJWT w req2 = NextErr d req2) /\
  (forall x,
     Middlewares.verifyJWT w req1 = Rejected x ->
     Middlewares.verifyJWT w req2 = Rejected x).
Proof.
  intros Hc Hh. pose proof (select_token_same req1 req2 Hc Hh) as Hsel.
  split; [|split].
  - intros r1 H.
    apply verifyJWT_success_token in H
      as (t & p & id & u & Hs & Hne & Hv & Hid & Ht & Hu & ->).
    exists u. split; [reflexivity|].
    rewrite Hsel in Hs. rewrite (verifyJWT_with_token w req2 t Hs Hne).
    unfold Middlewares.verifyJWT_try. rewrite Hv, Hid. simpl.
    rewrite Ht. simpl. now rewrite Hu.
  - intros d r1 H. apply verifyJWT_failure_complete in H as [_ H].
    apply verifyJWT_failure_sound. now apply (jwt_failure_case_same w req1).
  - intros x H. apply verifyJWT_rejected in H as (t & e & Hs & Hne & He & Hm).
    apply verifyJWT_rejected. exists t, e. rewrite <- Hsel. now repeat split.
Qed.

Lemma verifyJWT_reads_token_only_witness :
  Middlewares.verifyJWT Samples.world
    {| body := JNull; cookies := Some [("token", "good")];
       headers := [("authorization", "Bearer ghost")];
       originalUrl := "/other"; user := Some Samples.newcomer |}
  = Next {| body := JNull; cookies := Some [("token", "good")];
            headers := [("authorization", "Bearer ghost")];
            originalUrl := "/other"; user := Some Samples.jay |}.
Proof.
  destruct (verifyJWT_reads_token_only Samples.world Samples.request
              {| body := JNull; cookies := Some [("token", "good")];
                 headers := [("authorization", "Bearer ghost")];
                 originalUrl := "/other"; user := Some Samples.newcomer |}
              eq_refl eq_refl) as (H & _ & _).
  destruct (H Samples.jay_request eq_refl) as (u & Hu & Hr).
  injection Hu as <-. exact Hr.
Defined.

(** X8. Every failure of [verifyJWT] carries a [statusCode] that the error
    handler sends as it is. The status is 500 exactly when the read of
    [payload.id] or the user lookup threw for the selected token, and then
    [extraData] is the exception; otherwise it is 401. *)
Theorem verifyJWT_failure_status (w : World) (req req' : Request) (d : Obj) :
  Middlewares.verifyJWT w req = NextErr d req' ->
  status (Middlewares.errorMiddleware d) = get d "statusCode" /\
  ((get d "statusCode" = JNum 500 /\
    exists t e, Middlewares.select_token req = Some t /\ t <> "" /\
                jwt_exception w t e /\ get d "extraData" = e) \/
   (get d "statusCode" = JNum 401 /\
    ~ exists t e, Middlewares.select_token req = Some t /\ t <> "" /\
                  jwt_exception w t e)).
Proof.
  intros H. apply verifyJWT_failure_complete in H as [_ H].
  destruct H as [H | t e Hs Hne Hv | t p id Hs Hne Hv Hid Hf
                 | t p id Hs Hne Hv Hid Ht Hu | t e m Hs Hne Hthrow Hm];
    (split; [reflexivity|]).
  - right. split; [reflexivity|]. intros (t & e & Hs & Hne & _).
    rewrite Hs in H. simpl in H.
    destruct (String.eqb_spec t ""); [contradiction | discriminate].
  - right. split; [reflexivity|]. intros (t' & e' & Hs' & _ & He').
    assert (t' = t) as -> by congruence.
    destruct He' as [p' Hv' _ | p' id' Hv' _ _ _]; congruence.
  - right. split; [reflexivity|]. intros (t' & e' & Hs' & _ & He').
    assert (t' = t) as -> by congruence.
    destruct He' as [p' Hv' Hid' | p' id' Hv' Hid' Ht' _]; congruence.
  - right. split; [reflexivity|]. intros (t' & e' & Hs' & _ & He').
    assert (t' = t) as -> by congruence.
    destruct He' as [p' Hv' Hid' | p' id' Hv' Hid' Ht' Hu']; congruence.
  - left. split; [reflexivity|]. now exists t, e.
Qed.

Lemma verifyJWT_failure_status_witness :
  status (Middlewares.errorMiddleware
            [("path", JStr "/middleware/verifyJWT"); ("statusCode", JNum 500);
             ("message", JStr "Can't reach database server");
             ("extraData", Samples.database_down)])
  = JNum 500.
Proof.
  apply (verifyJWT_failure_status Samples.world Samples.storm_request
           Samples.storm_request). reflexivity.
Defined.

(** ** The shapes of the outcomes *)

Lemma validateSchema_failure_shape (schema : Schema) (req r : Request) (d : Obj) :
  Middlewares.validateSchema schema req = NextErr d r ->
  r = req /\
  exists message errors,
    d = [("path", JStr (originalUrl req ++ "/middleware/validate"));
         ("status", JNum 422); ("message", message); ("extraData", errors)].
Proof.
  unfold Middlewares.validateSchema.
  destruct (schema (body req)) as [b|e]; simpl; [discriminate|].
  destruct (getProp e "errors") as [es|]; simpl; [|discriminate].
  destruct (getIdx es 0) as [f|]; simpl; [|discriminate].
  destruct (getProp f "message") as [m|]; simpl; [|discriminate].
  intros [= <- <-]. split; [reflexivity|]. now exists m, es.
Qed.

Lemma validateSchema_success (schema : Schema) (req r : Request) :
  Middlewares.validateSchema schema req = Next r ->
  exists parsed, schema (body req) = Ok parsed /\ r = with_body req parsed.
Proof.
  unfold Middlewares.validateSchema.
  destruct (schema (body req)) as [b|e]; simpl.
  - intros [= <-]. now exists b.
  - destruct (getProp e "errors") as [es|]; simpl; [|discriminate].
    destruct (getIdx es 0) as [f|]; simpl; [|discriminate].
    destruct (getProp f "message"); discriminate.
Qed.

Lemma isUser_failure_shape (w : World) (req r : Request) (d : Obj) :
  Middlewares.isUser w req = NextErr d r ->
  r = req /\
  exists e message,
    Middlewares.isUser_try w req = Throw e /\
    d = [("status", JNum 400); ("message", message); ("extraData", e)].
Proof.
  unfold Middlewares.isUser.
  destruct (Middlewares.isUser_try w req) as [o|e] eqn:Htry; simpl.
  - intros ->. revert Htry. unfold Middlewares.isUser_try.
    destruct (Middlewares.destructure_email (body req)) as [em|]; simpl;
      [|discriminate].
    destruct (Middlewares.call_toLowerCase w em) as [l|]; simpl; [|discriminate].
    destruct (users_by_email w l) as [[u|]|]; discriminate.
  - destruct (getProp e "stack"); simpl; [|discriminate].
    destruct (getProp e "message") as [m|]; simpl; [|discriminate].
    intros [= <- <-]. split; [reflexivity|]. now exists e, m.
Qed.

Lemma isUser_success_email (w : World) (req r : Request) :
  Middlewares.isUser w req = Next r ->
  exists e u,
    Middlewares.destructure_email (body req) = Ok (JStr e) /\
    users_by_email w (toLowerCase w e) = Ok (Some u) /\
    r = with_user req u.
Proof.
  unfold Middlewares.isUser, Middlewares.isUser_try.
  destruct (Middlewares.destructure_email (body req)) as [em|e]; simpl.
  - destruct em as [ | | b | n | s | xs | c fs]; simpl; try discriminate.
    destruct (users_by_email w (toLowerCase w s)) as [[u|]|e] eqn:Hu; simpl.
    + intros [= <-]. now exists s, u.
    + discriminate.
    + destruct (getProp e "stack"); simpl; [|discriminate].
      destruct (getProp e "message"); discriminate.
  - destruct (getProp e "stack"); simpl; [|discriminate].
    destruct (getProp e "message"); discriminate.
Qed.

Lemma isVerified_failure_shape (w : World) (req r : Request) (d : Obj) :
  Middlewares.isVerified w req = NextErr d r ->
  r = req /\
  (d = [("path", JStr "/middleware/isVerified"); ("statusCode", JNum 400);
        ("message", JStr "User is not verified")] \/
   exists e message,
     d = [("status", JNum 500); ("message", message); ("extraData", e)]).
Proof.
  unfold Middlewares.isVerified, Middlewares.isVerified_try, Middlewares.user_prop.
  destruct (user req) as [u|]; simpl.
  - destruct (strict_eq_false (Data.isVerified u)); simpl; [|discriminate].
    intros [= <- <-]. split; [reflexivity | now left].
  - intros [= <- <-]. split; [reflexivity|]. right. now eexists _, _.
Qed.

Lemma isVerified_success (w : World) (req r : Request) :
  Middlewares.isVerified w req = Next r -> r = req.
Proof.
  unfold Middlewares.isVerified, Middlewares.isVerified_try, Middlewares.user_prop.
  destruct (user req) as [u|]; simpl; [|discriminate].
  destruct (strict_eq_false (Data.isVerified u)); simpl; [discriminate|].
  now intros [= <-].
Qed.

Lemma verificationMailSent_failure_shape (w : World) (req r : Request) (d : Obj) :
  Middlewares.verificationMailSent w req = NextErr d r ->
  r = req /\
  ((exists text,
      d = [("path", JStr "/middleWare/verificationMailSent");
           ("statusCode", JNum 400); ("message", JStr text)]) \/
   exists e message,
     d = [("status", JNum 500); ("message", message); ("extraData", e)]).
Proof.
  unfold Middlewares.verificationMailSent, Middlewares.verificationMailSent_try,
    Middlewares.user_prop.
  destruct (user req) as [u|]; simpl.
  - destruct (tokens_by_userId w (sys_id u)) as [[td|]|e]; simpl.
    + destruct (now_check w <? expiresAt td); simpl; [|discriminate].
      intros [= <- <-]. split; [reflexivity|]. left. now eexists.
    + discriminate.
    + unfold Middlewares.internal_failure.
      destruct (getProp e "message") as [m|]; simpl; [|discriminate].
      intros [= <- <-]. split; [reflexivity|]. right. now exists e, m.
  - intros [= <- <-]. split; [reflexivity|]. right. now eexists _, _.
Qed.

Lemma verificationMailSent_success (w : World) (req r : Request) :
  Middlewares.verificationMailSent w req = Next r -> r = req.
Proof.
  unfold Middlewares.verificationMailSent, Middlewares.verificationMailSent_try,
    Middlewares.user_prop.
  destruct (user req) as [u|]; simpl; [|discriminate].
  destruct (tokens_by_userId w (sys_id u)) as [[td|]|e]; simpl.
  - destruct (now_check w <? expiresAt td); simpl; [discriminate|].
    now intros [= <-].
  - now intros [= <-].
  - unfold Middlewares.internal_failure.
    destruct (getProp e "message"); discriminate.
Qed.

(** X9. Whatever makes [validateSchema], [isUser], [isVerified] or
    [verificationMailSent] call [next(err)], the error handler answers with
    status 400: of all the guards only [verifyJWT] can produce another
    status. The request is passed on as it came. *)
Theorem other_guards_fail_400 (w : World) (schema : Schema) (req r : Request)
    (d : Obj) :
  Middlewares.validateSchema schema req = NextErr d r \/
  Middlewares.isUser w req = NextErr d r \/
  Middlewares.isVerified w req = NextErr d r \/
  Middlewares.verificationMailSent w req = NextErr d r ->
  r = req /\ status (Middlewares.errorMiddleware d) = JNum 400.
Proof.
  intros [H | [H | [H | H]]].
  - apply validateSchema_failure_shape in H as (-> & m & es & ->). now split.
  - apply isUser_failure_shape in H as (-> & e & m & _ & ->). now split.
  - apply isVerified_failure_shape in H as (-> & [-> | (e & m & ->)]); now split.
  - apply verificationMailSent_failure_shape in H
      as (-> & [(text & ->) | (e & m & ->)]); now split.
Qed.

Lemma other_guards_fail_400_witness :
  status (Middlewares.errorMiddleware Samples.no_user_descriptor) = JNum 400.
Proof.
  apply (other_guards_fail_400 Samples.world Samples.login_schema
           Samples.request Samples.request Samples.no_user_descriptor).
  right. right. left. reflexivity.
Defined.

(** X10. What a guard has done when it calls [next()]: [validateSchema]
    has put the parsed value in place of the body and changed nothing else;
    [verifyJWT] has attached the record found for the token's [id], and
    [isUser] the record found for the lower-cased email, and changed
    nothing else; [isVerified] and [verificationMailSent] have changed
    nothing. Cookies, headers and the URL are never touched. *)
Theorem guards_frame (w : World) (schema : Schema) (req r : Request) :
  (Middlewares.validateSchema schema req = Next r ->
   exists parsed,
     schema (body req) = Ok parsed /\
     r = {| body := parsed; cookies := cookies req; headers := headers req;
            originalUrl := originalUrl req; user := user req |}) /\
  (Middlewares.verifyJWT w req = Next r ->
   exists t payload id u,
     Middlewares.select_token req = Some t /\ jwt_verify w t = Ok payload /\
     getProp payload "id" = Ok id /\ users_by_githubId w id = Ok (Some u) /\
     r = {| body := body req; cookies := cookies req; headers := headers req;
            originalUrl := originalUrl req; user := Some u |}) /\
  (Middlewares.isUser w req = Next r ->
   exists e u,
     Middlewares.destructure_email (body req) = Ok (JStr e) /\
     users_by_email w (toLowerCase w e) = Ok (Some u) /\
     r = {| body := body req; cookies := cookies req; headers := headers req;
            originalUrl := originalUrl req; user := Some u |}) /\
  (Middlewares.isVerified w req = Next r \/
   Middlewares.verificationMailSent w req = Next r ->
   r = req).
Proof.
  split; [|split; [|split]].
  - intros H. apply validateSchema_success in H as (p & Hp & ->). now exists p.
  - intros H. apply verifyJWT_success in H as (t & p & id & u & ? & ? & ? & ? & ->).
    now exists t, p, id, u.
  - intros H. apply isUser_success_email in H as (e & u & ? & ? & ->).
    now exists e, u.
  - intros [H | H].
    + now apply isVerified_success in H.
    + now apply verificationMailSent_success in H.
Qed.

Lemma guards_frame_witness :
  (exists parsed,
     Samples.login_schema (body Samples.jay_request) = Ok parsed /\
     with_body Samples.jay_request (lit [("email", JStr "jay@example.com")])
     = {| body := parsed; cookies := Some [("token", "good")];
          headers := [("authorization", "Bearer ghost")];
          originalUrl := "/auth/login"; user := Some Samples.jay |}) /\
  (exists e u,
     Middlewares.destructure_email (body Samples.request) = Ok (JStr e) /\
     users_by_email Samples.world (toLowerCase Samples.world e) = Ok (Some u) /\
     Samples.jay_request
     = {| body := lit [("email", JStr "Jay@Example.com")];
          cookies := Some [("token", "good")];
          headers := [("authorization", "Bearer ghost")];
          originalUrl := "/auth/login"; user := Some u |}).
Proof.
  destruct (guards_frame Samples.world Samples.login_schema Samples.jay_request
              (with_body Samples.jay_request (lit [("email", JStr "jay@example.com")])))
    as [H1 _].
  destruct (guards_frame Samples.world Samples.login_schema Samples.request
              Samples.jay_request) as (_ & _ & H3 & _).
  split.
  - apply H1. reflexivity.
  - apply H3. reflexivity.
Defined.

(** ** Lookup by email, further *)

(** X12. After [verifyJWT], [isUser] replaces the user the token stood for
    by the user the body's email stands for: what the route handler sees is
    the record found for the lower-cased email, on a request otherwise as
    it came. *)
Theorem isUser_replaces_user (w : World) (req r1 r2 : Request) :
  Middlewares.verifyJWT w req = Next r1 ->
  Middlewares.isUser w r1 = Next r2 ->
  exists e u,
    Middlewares.destructure_email (body req) = Ok (JStr e) /\
    users_by_email w (toLowerCase w e) = Ok (Some u) /\
    r2 = {| body := body req; cookies := cookies req; headers := headers req;
            originalUrl := originalUrl req; user := Some u |}.
Proof.
  intros Hv Hi.
  apply verifyJWT_success in Hv as (? & ? & ? & u0 & _ & _ & _ & _ & ->).
  apply isUser_success_email in Hi as (e & u & He & Hu & ->).
  now exists e, u.
Qed.

Lemma isUser_replaces_user_witness :
  Middlewares.verifyJWT Samples.world Cases.mixed_request
  = Next (with_user Cases.mixed_request Samples.jay) /\
  exists e u,
    Middlewares.destructure_email (body Cases.mixed_request) = Ok (JStr e) /\
    users_by_email Samples.world (toLowerCase Samples.world e) = Ok (Some u) /\
    with_user Cases.mixed_request Samples.newcomer
    = {| body := lit [("email", JStr "Hubot@Example.com")];
         cookies := Some [("token", "good")]; headers := [];
         originalUrl := "/auth/resend"; user := Some u |}.
Proof.
  split; [reflexivity|].
  apply (isUser_replaces_user Samples.world Cases.mixed_request
           (with_user Cases.mixed_request Samples.jay)
           (with_user Cases.mixed_request Samples.newcomer));
    reflexivity.
Defined.

Lemma getProp_defined (e message : JsVal) (k k' : string) :
  getProp e k = Ok message -> exists x, getProp e k' = Ok x.
Proof. destruct e; simpl; intros H; try discriminate; eauto. Qed.

(** X13. A lookup of the lower-cased email that throws is not an internal
    error for [isUser]: the exception is passed to [next] with its message, itself as
    [extraData] and 400 under the key [status], and the response has status
    400. (The exception has a readable [message].) *)
Theorem isUser_lookup_throws (w : World) (req : Request) (e0 : string)
    (e message : JsVal) :
  Middlewares.destructure_email (body req) = Ok (JStr e0) ->
  users_by_email w (toLowerCase w e0) = Throw e ->
  getProp e "message" = Ok message ->
  let d := [("status", JNum 400); ("message", message); ("extraData", e)] in
  Middlewares.isUser w req = NextErr d req /\
  status (Middlewares.errorMiddleware d) = JNum 400.
Proof.
  intros He Hu Hm d. split; [|reflexivity].
  unfold Middlewares.isUser, Middlewares.isUser_try.
  rewrite He. simpl. rewrite Hu. simpl.
  destruct (getProp_defined e message "message" "stack" Hm) as (x & ->).
  simpl. now rewrite Hm.
Qed.

Lemma isUser_lookup_throws_witness :
  Middlewares.isUser Cases.outage Samples.request
  = NextErr [("status", JNum 400);
             ("message", JStr "Can't reach database server");
             ("extraData", Samples.database_down)] Samples.request.
Proof.
  apply (isUser_lookup_throws Cases.outage Samples.request "Jay@Example.com"
           Samples.database_down (JStr "Can't reach database server"));
    reflexivity.
Defined.

(** ** Which guards can leave a request unanswered *)

(** X14. [isVerified] always calls [next]: it never writes a response and
    its promise is never rejected. [verificationMailSent] never writes a
    response either, and its promise is rejected in one case only: the
    token lookup threw [undefined] or [null], whose [message] the [catch]
    block cannot read. *)
Theorem attached_user_guards_settle (w : World) (req : Request) :
  (forall e, Middlewares.isVerified w req <> Rejected e) /\
  (forall r, Middlewares.isVerified w req <> Sent r) /\
  (forall r, Middlewares.verificationMailSent w req <> Sent r) /\
  (forall e',
     Middlewares.verificationMailSent w req = Rejected e' ->
     exists u e,
       user req = Some u /\ tokens_by_userId w (sys_id u) = Throw e /\
       (e = JUndefined \/ e = JNull)).
Proof.
  split; [|split; [|split]].
  - intros e. unfold Middlewares.isVerified, Middlewares.isVerified_try,
      Middlewares.user_prop.
    destruct (user req) as [u|]; simpl; [|discriminate].
    destruct (strict_eq_false (Data.isVerified u)); discriminate.
  - intros r. unfold Middlewares.isVerified, Middlewares.isVerified_try,
      Middlewares.user_prop.
    destruct (user req) as [u|]; simpl; [|discriminate].
    destruct (strict_eq_false (Data.isVerified u)); discriminate.
  - intros r. unfold Middlewares.verificationMailSent,
      Middlewares.verificationMailSent_try, Middlewares.user_prop.
    destruct (user req) as [u|]; simpl; [|discriminate].
    destruct (tokens_by_userId w (sys_id u)) as [[td|]|e]; simpl.
    + destruct (now_check w <? expiresAt td); discriminate.
    + discriminate.
    + unfold Middlewares.internal_failure.
      destruct (getProp e "message"); discriminate.
  - intros e'. unfold Middlewares.verificationMailSent,
      Middlewares.verificationMailSent_try, Middlewares.user_prop.
    destruct (user req) as [u|]; simpl; [|discriminate].
    destruct (tokens_by_userId w (sys_id u)) as [[td|]|e] eqn:Ht; simpl.
    + destruct (now_check w <? expiresAt td); discriminate.
    + discriminate.
    + intros H. exists u, e. split; [reflexivity|]. split; [exact Ht|].
      destruct e; simpl in H; try discriminate H; auto.
Qed.

Lemma attached_user_guards_settle_witness :
  exists u e,
    user Samples.jay_request = Some u /\
    tokens_by_userId Cases.outage (sys_id u) = Throw e /\
    (e = JUndefined \/ e = JNull).
Proof.
  destruct (attached_user_guards_settle Cases.outage Samples.jay_request)
    as (_ & _ & _ & H).
  apply (H (cannot_read JUndefined "message")). reflexivity.
Defined.

(** ** The time shown by the cooldown *)

Lemma verificationMailSent_blocked (w : World) (req : Request) (u : User)
    (td : VerificationToken) :
  user req = Some u ->
  tokens_by_userId w (sys_id u) = Ok (Some td) ->
  now_check w < expiresAt td ->
  Z.abs (expiresAt td - now_left w) <= Middlewares.max_time ->
  message_of (Middlewares.verificationMailSent w req)
  = JStr ("Verification mail already sent, you can resend it after "
          ++ Middlewares.left_text w (Some (expiresAt td - now_left w))).
Proof.
  intros Hu Ht Hlt Hvalid.
  unfold Middlewares.verificationMailSent, Middlewares.verificationMailSent_try,
    Middlewares.user_prop.
  rewrite Hu. simpl. rewrite Ht. simpl.
  destruct (Z.ltb_spec (now_check w) (expiresAt td)); [|lia]. simpl.
  now rewrite newDate_valid by exact Hvalid.
Qed.

(** Minute and second of a local time a whole number of hours away from
    [t]. *)
Lemma whole_hours_minute (t k : Z) :
  ((t + 3600000 * k) / 60000) mod 60 = (t / 60000) mod 60.
Proof.
  replace (t + 3600000 * k) with (t + (60 * k) * 60000) by lia.
  rewrite Z.div_add by lia.
  replace (t / 60000 + 60 * k) with (t / 60000 + k * 60) by lia.
  now rewrite Z.mod_add by lia.
Qed.

Lemma whole_hours_second (t k : Z) :
  ((t + 3600000 * k) / 1000) mod 60 = (t / 1000) mod 60.
Proof.
  replace (t + 3600000 * k) with (t + (3600 * k) * 1000) by lia.
  rewrite Z.div_add by lia.
  replace (t / 1000 + 3600 * k) with (t / 1000 + (60 * k) * 60) by lia.
  now rewrite Z.mod_add by lia.
Qed.

(** X15. Where local time is a whole number of hours from UTC and less than
    an hour is left, the message shows the time that is really left: the
    whole minutes and the seconds beyond them, or the seconds alone when
    less than a minute is left. *)
Theorem cooldown_shows_time_left (w : World) (req : Request) (u : User)
    (td : VerificationToken) (k : Z) :
  user req = Some u ->
  tokens_by_userId w (sys_id u) = Ok (Some td) ->
  now_check w < expiresAt td ->
  let left := expiresAt td - now_left w in
  localTZA w left = 3600000 * k ->
  0 <= left < 3600000 ->
  message_of (Middlewares.verificationMailSent w req)
  = JStr ("Verification mail already sent, you can resend it after "
          ++ (if left <? 60000 then show_Z (left / 1000) ++ " seconds"
              else show_Z (left / 60000) ++ ":" ++
                   show_Z ((left / 1000) mod 60) ++ " minutes")).
Proof.
  intros Hu Ht Hlt left Hz Hleft.
  rewrite (verificationMailSent_blocked w req u td Hu Ht Hlt)
    by (unfold Middlewares.max_time; fold left; lia).
  fold left. rewrite (left_text_valid w left), Hz.
  rewrite whole_hours_minute, whole_hours_second.
  assert (Hm : 0 <= left / 60000 < 60).
  { split; [apply Z.div_pos; lia | apply Z.div_lt_upper_bound; lia]. }
  rewrite (Z.mod_small (left / 60000) 60) by exact Hm.
  destruct (Z.ltb_spec left 60000) as [Hsmall | Hbig].
  - rewrite (Z.div_small left 60000) by lia. simpl.
    rewrite (Z.mod_small (left / 1000) 60); [reflexivity|].
    split; [apply Z.div_pos; lia | apply Z.div_lt_upper_bound; lia].
  - assert (1 <= left / 60000) by (apply Z.div_le_lower_bound; lia).
    destruct (Z.eqb_spec (left / 60000) 0); [lia | reflexivity].
Qed.

Lemma cooldown_shows_time_left_witness :
  message_of (Middlewares.verificationMailSent (Cases.around_expiry 200000 (-185000) 2)
                Samples.newcomer_request)
  = JStr "Verification mail already sent, you can resend it after 3:5 minutes".
Proof.
  apply (cooldown_shows_time_left (Cases.around_expiry 200000 (-185000) 2)
           Samples.newcomer_request Samples.newcomer
           {| userId := "u-18"; expiresAt := 1700000300000 |} 2);
    [reflexivity | reflexivity | reflexivity | reflexivity | simpl; lia].
Defined.

(** X16. The clock is read once for the test and once more for the
    difference. When the token expires between the two readings, by up to a
    minute, the request is still refused and, in a zone a whole number of
    hours from UTC, the message tells the user to wait 59 minutes and some
    seconds. *)
Theorem cooldown_expiry_race (w : World) (req : Request) (u : User)
    (td : VerificationToken) (k : Z) :
  user req = Some u ->
  tokens_by_userId w (sys_id u) = Ok (Some td) ->
  now_check w < expiresAt td ->
  let left := expiresAt td - now_left w in
  localTZA w left = 3600000 * k ->
  -60000 <= left < 0 ->
  message_of (Middlewares.verificationMailSent w req)
  = JStr ("Verification mail already sent, you can resend it after 59:"
          ++ show_Z ((left / 1000) mod 60) ++ " minutes").
Proof.
  intros Hu Ht Hlt left Hz Hleft.
  rewrite (verificationMailSent_blocked w req u td Hu Ht Hlt)
    by (unfold Middlewares.max_time; fold left; lia).
  fold left. rewrite (left_text_valid w left), Hz.
  rewrite whole_hours_minute, whole_hours_second.
  assert (Hq : left / 60000 = -1).
  { symmetry. apply (Z.div_unique left 60000 (-1) (left + 60000)); lia. }
  rewrite Hq. reflexivity.
Qed.

Lemma cooldown_expiry_race_witness :
  message_of (Middlewares.verificationMailSent (Cases.around_expiry 1 500 0)
                Samples.newcomer_request)
  = JStr "Verification mail already sent, you can resend it after 59:59 minutes".
Proof.
  apply (cooldown_expiry_race (Cases.around_expiry 1 500 0)
           Samples.newcomer_request Samples.newcomer
           {| userId := "u-18"; expiresAt := 1700000300000 |} 0);
    [reflexivity | reflexivity | reflexivity | reflexivity | simpl; lia].
Defined.
